(** * generate_stats.py: statistics and musical encoding of a git history

    A shallow embedding of [src/generate_stats.py]: the per-line parser and
    aggregator of [analyze_git_history], its productivity-score finalisation,
    [create_musical_representation] and [generate_summary_report].

    Modelling conventions.
    - A Python [str] is a [string] whose characters are Latin-1 code points
      (one [ascii] byte per character); [str.lower] is modelled on that range.
    - A [dict] (and a [defaultdict]) is an association list kept in insertion
      order, as Python iterates it.
    - A Python [float] is a primitive binary64 [float]; Python raises
      ZeroDivisionError where IEEE would return an infinity, so divisions
      return an [option].
    - [datetime.fromisoformat] and the [git diff-tree] call are library and
      process calls: they are Section variables, so every theorem holds for
      any parser and any git output. *)

From Stdlib Require Import ZArith List String Ascii Bool Lia.
From Stdlib Require Import Floats Uint63 Sorting.Permutation Sorting.Sorted.
Import ListNotations.
Open Scope string_scope.
Open Scope Z_scope.

(* ------------------------------------------------------------------ *)
(** ** Python string primitives *)

Module Py.

(** [str.lower] on one Latin-1 character: A-Z and the Latin-1 capitals
    (U+00C0..U+00DE except the multiplication sign U+00D7). *)
Definition lower_char (c : ascii) : ascii :=
  let n := nat_of_ascii c in
  if ((65 <=? n) && (n <=? 90))%nat
     || ((192 <=? n) && (n <=? 222) && negb (n =? 215))%nat
  then ascii_of_nat (n + 32) else c.

Fixpoint lower (s : string) : string :=
  match s with
  | EmptyString => EmptyString
  | String c s' => String (lower_char c) (lower s')
  end.

(** [needle in hay] *)
Fixpoint contains (needle hay : string) : bool :=
  prefix needle hay ||
  match hay with
  | EmptyString => false
  | String _ hay' => contains needle hay'
  end.

(** [s.split(sep)] for a one-character separator. *)
Fixpoint split (sep : ascii) (s : string) : list string :=
  match s with
  | EmptyString => [EmptyString]
  | String c s' =>
      if Ascii.eqb c sep then EmptyString :: split sep s'
      else match split sep s' with
           | [] => [String c EmptyString]
           | w :: ws => String c w :: ws
           end
  end.

(** [s.replace(old, new)] for a one-character [old]. *)
Fixpoint replace_char (old : ascii) (new s : string) : string :=
  match s with
  | EmptyString => EmptyString
  | String c s' =>
      if Ascii.eqb c old then new ++ replace_char old new s'
      else String c (replace_char old new s')
  end.

(** [lst[-1]] on a non-empty list. *)
Definition last_item (l : list string) : string := last l EmptyString.

(** [lst[-n:]] *)
Definition take_last {A} (n : nat) (l : list A) : list A :=
  skipn (List.length l - n) l.

(** [s * n] *)
Fixpoint repeat_str (s : string) (n : nat) : string :=
  match n with O => EmptyString | S n' => s ++ repeat_str s n' end.

Definition dot : ascii := ".".
Definition newline : ascii := "010".
Definition bar : ascii := "|".

End Py.

(* ------------------------------------------------------------------ *)
(** ** Dictionaries in insertion order *)

Module Dict.

Definition t (K V : Type) := list (K * V).

Section Ops.
Context {K V : Type} (dec : forall x y : K, {x = y} + {x <> y}).

Fixpoint get (k : K) (d : t K V) : option V :=
  match d with
  | [] => None
  | (k', v) :: d' => if dec k k' then Some v else get k d'
  end.

(** [d[k] = v]: in place when present, appended otherwise. *)
Fixpoint set (k : K) (v : V) (d : t K V) : t K V :=
  match d with
  | [] => [(k, v)]
  | (k', v') :: d' => if dec k k' then (k', v) :: d' else (k', v') :: set k v d'
  end.

Definition keys (d : t K V) : list K := map fst d.
Definition values (d : t K V) : list V := map snd d.

End Ops.

Section Counter.
Context {K : Type} (dec : forall x y : K, {x = y} + {x <> y}).

(** [defaultdict(int)[k] += 1] *)
Definition incr (k : K) (d : t K Z) : t K Z :=
  match get dec k d with
  | Some v => set dec k (v + 1) d
  | None => set dec k 1 d
  end.

(** [d[k]] of a [defaultdict(int)] read without inserting. *)
Definition count (k : K) (d : t K Z) : Z :=
  match get dec k d with Some v => v | None => 0 end.

End Counter.

Definition sum (l : list Z) : Z := fold_right Z.add 0 l.

End Dict.

(* ------------------------------------------------------------------ *)
(** ** The two classification blocks *)

Module Classify.
Import Py.

(** The commit-type keys used by both blocks. *)
Definition k_release := "release".
Definition k_fix := "fix".
Definition k_feature := "feature".
Definition k_merge := "merge".
Definition k_test := "test".
Definition k_other := "other".

(** [analyze_git_history], lines 76-92: the key whose [commit_types] counter
    is incremented, and whether a [release_history] entry is appended. *)
Definition stats_branch (message : string) : string * bool :=
  let msg_lower := lower message in
  if contains "release" msg_lower || contains "version" msg_lower then (k_release, true)
  else if contains "fix" msg_lower then (k_fix, false)
  else if contains "add" msg_lower || contains "implement" msg_lower then (k_feature, false)
  else if contains "merge" msg_lower then (k_merge, false)
  else if contains "test" msg_lower then (k_test, false)
  else (k_other, false).

(** [create_musical_representation], lines 158-170: [commit_type] starts as
    ['other'] and is overwritten by the first matching branch. *)
Definition music_commit_type (message : string) : string :=
  let msg_lower := lower message in
  let commit_type := k_other in
  if contains "release" msg_lower || contains "version" msg_lower then k_release
  else if contains "fix" msg_lower then k_fix
  else if contains "add" msg_lower || contains "implement" msg_lower then k_feature
  else if contains "merge" msg_lower then k_merge
  else if contains "test" msg_lower then k_test
  else commit_type.

(** The classifier as the specification words it (section 4.3): ordered
    (keywords, tag) rules, first match wins, a keyword matching when some
    window of the message equals it up to letter case. *)
Fixpoint ci_prefix (kw s : string) : bool :=
  match kw, s with
  | EmptyString, _ => true
  | String k kw', String c s' =>
      Ascii.eqb (lower_char c) (lower_char k) && ci_prefix kw' s'
  | String _ _, EmptyString => false
  end.

Fixpoint ci_contains (kw s : string) : bool :=
  ci_prefix kw s ||
  match s with EmptyString => false | String _ s' => ci_contains kw s' end.

Definition spec_rules : list (list string * string) :=
  [ (["release"; "version"], k_release);
    (["fix"], k_fix);
    (["add"; "implement"], k_feature);
    (["merge"], k_merge);
    (["test"], k_test) ].

Fixpoint first_match (msg : string) (rules : list (list string * string)) : string :=
  match rules with
  | [] => k_other
  | (kws, tag) :: rest =>
      if existsb (fun kw => ci_contains kw msg) kws then tag else first_match msg rest
  end.

Definition spec_classify (msg : string) : string := first_match msg spec_rules.

End Classify.

(* ------------------------------------------------------------------ *)
(** ** Dates, times and their formatting *)

Module Time.

(** A [datetime]: calendar fields, time of day and an optional UTC offset
    in seconds ([None] for a naive datetime). *)
Record datetime := mkDT {
  year : Z; month : Z; day : Z;
  hour : Z; minute : Z; second : Z; microsecond : Z;
  tzoffset : option Z }.

(** What every Python [datetime] satisfies. *)
Definition is_leap (y : Z) : bool :=
  (y mod 4 =? 0) && (negb (y mod 100 =? 0) || (y mod 400 =? 0)).

Definition days_in_month (y m : Z) : Z :=
  if m =? 2 then (if is_leap y then 29 else 28)
  else if (m =? 4) || (m =? 6) || (m =? 9) || (m =? 11) then 30 else 31.

Definition valid (d : datetime) : Prop :=
  1 <= year d <= 9999 /\ 1 <= month d <= 12 /\ 1 <= day d <= days_in_month (year d) (month d)
  /\ 0 <= hour d <= 23 /\ 0 <= minute d <= 59 /\ 0 <= second d <= 59
  /\ 0 <= microsecond d <= 999999.

(** [datetime.toordinal], as CPython's [_ymd2ord]. *)
Definition days_before_year (y : Z) : Z :=
  let y' := y - 1 in y' * 365 + y' / 4 - y' / 100 + y' / 400.

Definition days_before_month (y m : Z) : Z :=
  let base := nth (Z.to_nat (m - 1)) [0; 31; 59; 90; 120; 151; 181; 212; 243; 273; 304; 334] 0 in
  if (m >? 2) && is_leap y then base + 1 else base.

Definition toordinal (d : datetime) : Z :=
  days_before_year (year d) + days_before_month (year d) (month d) + day d.

(** 0-based day of the year ([tm_yday]). *)
Definition yday (d : datetime) : Z := days_before_month (year d) (month d) + day d - 1.

(** [date.weekday()], Monday = 0. *)
Definition weekday (d : datetime) : Z := (toordinal d + 6) mod 7.

(** C's [tm_wday], Sunday = 0, as [strftime] receives it. *)
Definition tm_wday (d : datetime) : Z := (weekday d + 1) mod 7.

(** [(a - b).days]: floor of the difference in days; subtracting a naive
    from an aware datetime raises TypeError. *)
Definition micros_of_day (d : datetime) : Z :=
  ((hour d * 60 + minute d) * 60 + second d) * 1000000 + microsecond d.

Definition sub_days (a b : datetime) : option Z :=
  let us := 86400 * 1000000 in
  let naive_diff := (toordinal a - toordinal b) * us + (micros_of_day a - micros_of_day b) in
  match tzoffset a, tzoffset b with
  | None, None => Some (naive_diff / us)
  | Some oa, Some ob => Some ((naive_diff - (oa - ob) * 1000000) / us)
  | _, _ => None
  end.

(** Decimal rendering of a non-negative integer. *)
Definition digit (n : Z) : ascii := ascii_of_nat (48 + Z.to_nat n).

Fixpoint digits_aux (fuel : nat) (n : Z) (acc : string) : string :=
  match fuel with
  | O => acc
  | S f =>
      let acc' := String (digit (n mod 10)) acc in
      if n <? 10 then acc' else digits_aux f (n / 10) acc'
  end.

Definition digits (n : Z) : string := digits_aux (Z.to_nat (Z.log2 n + 2)) n EmptyString.

(** [f"{n}"] for a Python int. *)
Definition str_of_int (n : Z) : string :=
  if n <? 0 then "-" ++ digits (- n) else digits n.

(** [%0<w>d]: zero-padded to at least [w] digits. *)
Definition pad0 (w : nat) (n : Z) : string :=
  let s := digits n in Py.repeat_str "0" (w - String.length s) ++ s.

(** [strftime('%Y-%m-%d')] *)
Definition strftime_ymd (d : datetime) : string :=
  pad0 4 (year d) ++ "-" ++ pad0 2 (month d) ++ "-" ++ pad0 2 (day d).

(** [strftime('%A')] *)
Definition strftime_A (d : datetime) : string :=
  nth (Z.to_nat (weekday d))
      ["Monday"; "Tuesday"; "Wednesday"; "Thursday"; "Friday"; "Saturday"; "Sunday"] "".

(** [strftime('%U')]: week of the year, weeks starting on Sunday, days
    before the first Sunday in week 0 (C's [(tm_yday + 7 - tm_wday) / 7]). *)
Definition week_U (d : datetime) : Z := (yday d + 7 - tm_wday d) / 7.

(** [strftime('%Y-W%U')] *)
Definition week_label (d : datetime) : string :=
  pad0 4 (year d) ++ "-W" ++ pad0 2 (week_U d).

End Time.

(* ------------------------------------------------------------------ *)
(** ** Python floats *)

Module PyFloat.
Open Scope float_scope.

(** [float(n)] for a Python int: round to nearest, ties to even. *)
Definition of_int (n : Z) : float :=
  SF2Prim (SpecFloat.binary_normalize FloatOps.prec FloatOps.emax n 0%Z false).

(** [a / b] for two Python ints: CPython divides the two converted floats
    when both are below 2^53 in magnitude, which every day count here is. *)
Definition int_truediv (a b : Z) : option float :=
  if (b =? 0)%Z then None else Some (of_int a / of_int b).

(** [x / y] for floats. *)
Definition truediv (x y : float) : option float :=
  if PrimFloat.eqb y 0 then None else Some (x / y).

End PyFloat.

(* ------------------------------------------------------------------ *)
(** ** analyze_git_history *)

Module Stats.
Import Py Time.

(** The [commit] dict built at lines 56-65. *)
Record commit := mkCommit {
  c_hash : string; c_author : string; c_email : string;
  c_date : datetime; c_message : string;
  c_day : string; c_hour : Z; c_weekday : string }.

(** The [stats] dict of lines 26-36. *)
Record stats := mkStats {
  total_commits : Z;
  authors : Dict.t string Z;
  commits_by_day : Dict.t string Z;
  commits_by_hour : Dict.t Z Z;
  commit_types : Dict.t string Z;
  file_changes : Dict.t string Z;
  languages : Dict.t string Z;
  release_history : list (string * string);
  productivity_score : Dict.t string float }.

Definition empty_stats : stats := mkStats 0 [] [] [] [] [] [] [] [].

Definition sincr := Dict.incr string_dec.
Definition zincr := Dict.incr Z.eq_dec.

(** Lines 96-102: one file path of the [git diff-tree] output. *)
Definition record_file (st : stats) (file : string) : stats :=
  if String.eqb file "" then st
  else
    let fc := sincr file (file_changes st) in
    let langs :=
      if contains "." file then sincr (last_item (split dot file)) (languages st)
      else languages st in
    mkStats (total_commits st) (authors st) (commits_by_day st) (commits_by_hour st)
            (commit_types st) fc langs (release_history st) (productivity_score st).

Definition record_files (files_changed : string) (st : stats) : stats :=
  fold_left record_file (split newline files_changed) st.

Section Analyze.

(** [datetime.fromisoformat], on the string after the ['Z'] replacement. *)
Variable fromisoformat : string -> option datetime.
(** [run_git_command("git diff-tree --no-commit-id --name-only -r <hash>")] *)
Variable diff_tree : string -> string.

(** Lines 39-65: one line of the log, [None] when it is skipped. *)
Definition parse_line (line : string) : option commit :=
  if String.eqb line "" then None
  else
    let parts := split bar line in
    if (5 <=? List.length parts)%nat then
      let date_str := nth 3 parts "" in
      match fromisoformat (replace_char "Z" "+00:00" date_str) with
      | None => None
      | Some date =>
          Some (mkCommit (nth 0 parts "") (nth 1 parts "") (nth 2 parts "") date
                         (nth 4 parts "") (strftime_ymd date) (hour date) (strftime_A date))
      end
    else None.

(** Lines 70-92: the counters and the classification. *)
Definition count_commit (c : commit) (st : stats) : stats :=
  let '(key, is_release) := Classify.stats_branch (c_message c) in
  mkStats (total_commits st + 1)
          (sincr (c_author c) (authors st))
          (sincr (c_day c) (commits_by_day st))
          (zincr (c_hour c) (commits_by_hour st))
          (sincr key (commit_types st))
          (file_changes st) (languages st)
          (if is_release then (release_history st ++ [(c_day c, c_message c)])%list
           else release_history st)
          (productivity_score st).

(** One iteration of the loop of lines 38-102. *)
Definition step (acc : list commit * stats) (line : string) : list commit * stats :=
  let '(commits, st) := acc in
  match parse_line line with
  | None => acc
  | Some c => ((commits ++ [c])%list, record_files (diff_tree (c_hash c)) (count_commit c st))
  end.

(** The loop over [commits_raw.split('\n')]; [commits_raw] is the output
    of the [git log] call. *)
Definition aggregate (commits_raw : string) : list commit * stats :=
  fold_left step (split newline commits_raw) ([], empty_stats).

(** Lines 104-111, with [today = datetime.now()]: [None] when Python raises
    (an unparsable day, a naive/aware subtraction, a zero divisor). *)
Definition weight (age_days : Z) : option float :=
  match PyFloat.int_truediv age_days 30 with
  | None => None
  | Some x => PyFloat.truediv 1.0%float (PyFloat.of_int 1 + x)%float
  end.

Fixpoint score_days (today : datetime) (days : Dict.t string Z)
    (ps : Dict.t string float) : option (Dict.t string float) :=
  match days with
  | [] => Some ps
  | (d, count) :: rest =>
      match fromisoformat d with
      | None => None
      | Some day_date =>
          match sub_days today day_date with
          | None => None
          | Some age_days =>
              match weight age_days with
              | None => None
              | Some w =>
                  score_days today rest
                    (Dict.set string_dec d (PyFloat.of_int count * w)%float ps)
              end
          end
      end
  end.

Definition finalize (today : datetime) (st : stats) : option stats :=
  match score_days today (commits_by_day st) (productivity_score st) with
  | None => None
  | Some ps =>
      Some (mkStats (total_commits st) (authors st) (commits_by_day st) (commits_by_hour st)
                    (commit_types st) (file_changes st) (languages st)
                    (release_history st) ps)
  end.

(** [analyze_git_history()] *)
Definition analyze_git_history (today : datetime) (commits_raw : string)
    : option (list commit * stats) :=
  let '(commits, st) := aggregate commits_raw in
  match finalize today st with
  | None => None
  | Some st' => Some (commits, st')
  end.

End Analyze.

End Stats.

(* ------------------------------------------------------------------ *)
(** ** create_musical_representation *)

Module Music.
Import Py Time Stats.

(** A Python number as the note fields hold it: [duration] is the int [1]
    or the float [0.5]. *)
Inductive num := NInt (z : Z) | NFloat (f : float).

Definition num_value (n : num) : float :=
  match n with NInt z => PyFloat.of_int z | NFloat f => f end.

Record note := mkNote {
  pitch : string; duration : num; instrument : string; velocity : Z; time : float }.

Record movement := mkMovement { name : string; notes : list note }.

Record score := mkScore {
  title : string; tempo : Z; time_signature : string; movements : list movement }.

(** Lines 119-126 *)
Definition note_map : Dict.t string string :=
  [("release", "C5"); ("feature", "A4"); ("fix", "F4");
   ("merge", "D4"); ("test", "G4"); ("other", "C4")].

(** Line 130 *)
Definition instruments : list string := ["piano"; "violin"; "cello"; "flute"; "guitar"].

(** Lines 129-134: [{author: instruments[i % 5] for i, author in enumerate(authors)}]. *)
Fixpoint enumerate_from {A} (i : nat) (l : list A) : list (nat * A) :=
  match l with [] => [] | x :: l' => (i, x) :: enumerate_from (S i) l' end.

Definition author_instruments (st : stats) : Dict.t string string :=
  fold_left (fun d '(i, author) =>
               Dict.set string_dec author
                 (nth (Nat.modulo i (List.length instruments)) instruments "") d)
            (enumerate_from 0 (Dict.keys (authors st))) [].

(** Lines 172-178: the note of one commit; [None] is the KeyError of
    [note_map[commit_type]]. *)
Definition make_note (ai : Dict.t string string) (c : commit) : option note :=
  let commit_type := Classify.music_commit_type (c_message c) in
  match Dict.get string_dec commit_type note_map with
  | None => None
  | Some p =>
      Some (mkNote p
              (if String.eqb commit_type "release" then NInt 1 else NFloat 0.5%float)
              (match Dict.get string_dec (c_author c) ai with Some i => i | None => "piano" end)
              (if String.eqb commit_type "release" then 100 else 80)
              (PyFloat.of_int (c_hour c) / 24.0)%float)
  end.

(** Lines 145-148: [commits_by_week[week].append(commit)]. *)
Definition add_to_week (d : Dict.t string (list commit)) (c : commit) : Dict.t string (list commit) :=
  let week := week_label (c_date c) in
  let old := match Dict.get string_dec week d with Some l => l | None => [] end in
  Dict.set string_dec week (old ++ [c])%list d.

Definition group_by_week (commits : list commit) : Dict.t string (list commit) :=
  fold_left add_to_week commits [].

(** [sorted(d.items())]: the week labels are distinct, so the tuples are
    ordered by their label; an insertion sort. *)
Fixpoint insert_item {A} (x : string * A) (l : list (string * A)) : list (string * A) :=
  match l with
  | [] => [x]
  | y :: l' => if String.leb (fst x) (fst y) then x :: y :: l' else y :: insert_item x l'
  end.

Fixpoint sort_items {A} (l : list (string * A)) : list (string * A) :=
  match l with [] => [] | x :: l' => insert_item x (sort_items l') end.

Fixpoint map_option {A B} (f : A -> option B) (l : list A) : option (list B) :=
  match l with
  | [] => Some []
  | x :: l' =>
      match f x with
      | None => None
      | Some y => match map_option f l' with None => None | Some ys => Some (y :: ys) end
      end
  end.

(** Lines 151-182: one movement per retained week. *)
Definition make_movement (ai : Dict.t string string) (item : string * list commit)
    : option movement :=
  let '(week, week_commits) := item in
  match map_option (make_note ai) week_commits with
  | None => None
  | Some ns => Some (mkMovement ("Week of " ++ week) ns)
  end.

(** The ten retained weeks: [sorted(commits_by_week.items())[-10:]]. *)
Definition retained_weeks (commits : list commit) : list (string * list commit) :=
  take_last 10 (sort_items (group_by_week commits)).

Definition create_musical_representation (commits : list commit) (st : stats) : option score :=
  let ai := author_instruments st in
  match map_option (make_movement ai) (retained_weeks commits) with
  | None => None
  | Some ms => Some (mkScore "The Para Symphony - A Git History in Music" 120 "4/4" ms)
  end.

End Music.

(* ------------------------------------------------------------------ *)
(** ** The summary report *)

(** A Python [str] of the report as its sequence of code points: the glyph
    literals of lines 204-260 hold characters outside Latin-1. *)
Module Report.
Import Py Time Stats.

Definition text := list Z.

Local Infix "+++" := (@app Z) (at level 60, right associativity).

Definition cps (s : string) : text :=
  map (fun c => Z.of_nat (nat_of_ascii c)) (list_ascii_of_string s).

(** [t * n] *)
Definition rep (n : Z) (t : text) : text := List.concat (List.repeat t (Z.to_nat n)).

(** [sep.join(ts)] *)
Definition join (sep : text) (ts : list text) : text :=
  match ts with [] => [] | t :: ts' => t +++ List.concat (map (fun u => sep +++ u) ts') end.

(** The literals of lines 204, 213/224, 249, 255 and 260. *)
Definition star : text := [0xe2; 0xad].
Definition bar : text := [0xe2; 0x2013; 0x2c6].
Definition dot : text := [0xc2; 0xb7].
Definition brightest_prefix : text := cps "  " +++ [0xf0; 0x178; 0x152; 0x178] +++ cps " Brightest Day: ".
Definition recent_prefix : text := cps "  " +++ [0xf0; 0x178; 0x201c; 0x2c6] +++ cps " Recent Activity: ".
Definition hottest_prefix : text := cps "  " +++ [0xf0; 0x178; 0x201d; 0xa5] +++ cps " Hottest File: ".

(** [int(x)] of a float: truncation toward zero; [None] for an infinity
    (OverflowError) or a NaN (ValueError). *)
Definition trunc (f : float) : option Z :=
  match Prim2SF f with
  | SpecFloat.S754_zero _ => Some 0
  | SpecFloat.S754_finite s m e =>
      let n := if e >=? 0 then Z.pos m * 2 ^ e else Z.pos m / 2 ^ (- e) in
      Some (if s then - n else n)
  | _ => None
  end.

(** [num / den] rounded to the nearest integer, ties to even ([den > 0]). *)
Definition round_half_even (num den : Z) : Z :=
  let q := num / den in
  let r := num mod den in
  if 2 * r <? den then q else if 2 * r >? den then q + 1 else if Z.even q then q else q + 1.

(** [f"{x:.1f}"]: the exact binary value rounded to one decimal, ties to even. *)
Definition fmt_1f (f : float) : text :=
  match Prim2SF f with
  | SpecFloat.S754_zero s => cps ((if s then "-" else "") ++ "0.0")
  | SpecFloat.S754_infinity s => cps (if s then "-inf" else "inf")
  | SpecFloat.S754_nan => cps "nan"
  | SpecFloat.S754_finite s m e =>
      let n := if e >=? 0 then Z.pos m * 10 * 2 ^ e
               else round_half_even (Z.pos m * 10) (2 ^ (- e)) in
      cps ((if s then "-" else "") ++ digits (n / 10) ++ "." ++ digits (n mod 10))
  end.

(** [s.capitalize()]: the first character title-cased, the rest lower-cased. *)
Definition upper_char (c : ascii) : ascii :=
  let n := nat_of_ascii c in
  if ((97 <=? n) && (n <=? 122))%nat || ((224 <=? n) && (n <=? 254) && negb (n =? 247))%nat
  then ascii_of_nat (n - 32) else c.

Definition title_char (c : ascii) : text :=
  match nat_of_ascii c with
  | 223%nat => [83; 115]
  | 181%nat => [924]
  | 255%nat => [376]
  | _ => [Z.of_nat (nat_of_ascii (upper_char c))]
  end.

Definition capitalize (s : string) : text :=
  match s with EmptyString => [] | String c r => title_char c +++ cps (lower r) end.

(** [sorted(d.items(), key=lambda x: x[1], reverse=True)]: descending,
    stable. *)
Fixpoint insert_desc {A} (x : A * Z) (l : list (A * Z)) : list (A * Z) :=
  match l with
  | [] => [x]
  | y :: l' => if snd y <=? snd x then x :: y :: l' else y :: insert_desc x l'
  end.

Definition sort_desc {A} (l : list (A * Z)) : list (A * Z) := fold_right insert_desc [] l.

(** [max(d.items(), key=lambda x: x[1])]: the first item of largest count;
    [None] is the ValueError of an empty dict. *)
Definition max_item {A} (l : list (A * Z)) : option (A * Z) :=
  match l with
  | [] => None
  | x :: l' => Some (fold_left (fun best y => if snd best <? snd y then y else best) l' x)
  end.

(** [sorted(keys)] of distinct strings. *)
Fixpoint insert_str (x : string) (l : list string) : list string :=
  match l with
  | [] => [x]
  | y :: l' => if String.leb x y then x :: y :: l' else y :: insert_str x l'
  end.

Definition sort_str (l : list string) : list string := fold_right insert_str [] l.

Definition banner : text := rep 60 (cps "=").

(** Lines 189-199 *)
Definition header_lines (st : stats) : list text :=
  [banner; cps "PARA GIT HISTORY: A COSMIC ANALYSIS"; banner; [];
   cps ("Total Commits: " ++ str_of_int (total_commits st));
   cps ("Active Days: " ++ str_of_int (Z.of_nat (List.length (commits_by_day st))));
   cps ("Contributors: " ++ str_of_int (Z.of_nat (List.length (authors st)))); []].

(** Lines 202-206 *)
Definition contributor_lines (st : stats) : list text :=
  (cps "TOP STAR GAZERS:" ::
  map (fun '(author, count) =>
         cps ("  " ++ author ++ ": " ++ str_of_int count ++ " commits ")
         +++ rep (Z.min (count / 10 + 1) 5) star)
      (firstn 5 (sort_desc (authors st))) ++ [[]])%list.

(** Lines 209-215: [None] is the ZeroDivisionError of a zero [total_typed]. *)
Definition type_lines (st : stats) : option (list text) :=
  let total_typed := Dict.sum (Dict.values (commit_types st)) in
  match Music.map_option
          (fun '(ctype, count) =>
             match PyFloat.int_truediv count total_typed with
             | None => None
             | Some q =>
                 let percentage := (q * PyFloat.of_int 100)%float in
                 match trunc (percentage / PyFloat.of_int 2)%float with
                 | None => None
                 | Some h => Some (cps "  " +++ capitalize ctype +++ cps ": " +++ rep h bar +++ cps " "
                                   +++ fmt_1f percentage +++ cps "%")
                 end
             end)
          (sort_desc (commit_types st)) with
  | None => None
  | Some ls => Some (cps "COMMIT CONSTELLATION TYPES:" :: ls ++ [[]])%list
  end.

Definition hours : list Z := map Z.of_nat (seq 0 24).
Definition sampled_hours : list Z := [0; 3; 6; 9; 12; 15; 18; 21].

(** Lines 218-228 *)
Definition hour_lines (st : stats) : option (list text) :=
  let max_commits :=
    match Dict.values (commits_by_hour st) with
    | [] => 1
    | v :: vs => fold_left (fun m x => if m <? x then x else m) vs v
    end in
  match Music.map_option
          (fun hour =>
             let count := match Dict.get Z.eq_dec hour (commits_by_hour st) with
                          | Some c => c | None => 0 end in
             match PyFloat.int_truediv count max_commits with
             | None => None
             | Some q =>
                 match trunc (q * PyFloat.of_int 8)%float with
                 | None => None
                 | Some height => Some (if 0 <? height then rep height bar else dot)
                 end
             end)
          hours with
  | None => None
  | Some hour_chart =>
      Some [cps "CODING HOURS (24h UTC):";
            cps "  " +++ List.concat (map (fun h => cps (pad0 2 h ++ " ")) sampled_hours);
            cps "  " +++ join (cps "   ") (map (fun h => nth (Z.to_nat h) hour_chart []) sampled_hours);
            []]
  end.

(** Lines 231-241 *)
Definition language_lines (st : stats) : list text :=
  (cps "LANGUAGE UNIVERSE:" ::
  map (fun '(lang, count) => cps ("  ." ++ lang ++ ": " ++ str_of_int count ++ " files touched"))
      (firstn 10 (sort_desc (languages st))) ++ [[]])%list.

Definition release_lines (st : stats) : list text :=
  (cps "RECENT STELLAR EVENTS (Releases):" ::
  map (fun '(date, message) => cps ("  " ++ date ++ ": " ++ message))
      (take_last 5 (release_history st)) ++ [[]])%list.

(** Lines 244-263 *)
Definition fact_lines (st : stats) : option (list text) :=
  let brightest :=
    match max_item (commits_by_day st) with
    | None => []
    | Some (day, count) =>
        [brightest_prefix +++ cps (day ++ " with " ++ str_of_int count ++ " commits")]
    end in
  let recent_days := take_last 30 (sort_str (Dict.keys (commits_by_day st))) in
  match Music.map_option (fun day => Dict.get string_dec day (commits_by_day st)) recent_days with
  | None => None
  | Some counts =>
      let recent_commits := Dict.sum counts in
      match (match recent_days with
             | [] => Some (PyFloat.of_int 0)
             | _ => PyFloat.int_truediv recent_commits (Z.of_nat (List.length recent_days))
             end) with
      | None => None
      | Some avg_recent =>
          let hottest :=
            match max_item (file_changes st) with
            | None => []
            | Some (path, count) =>
                [hottest_prefix +++ cps (path ++ " (" ++ str_of_int count ++ " changes)")]
            end in
          Some (cps "COSMIC FACTS:" :: brightest
                ++ [recent_prefix +++ fmt_1f avg_recent +++ cps " commits/day (last 30 days)"]
                ++ hottest ++ [[]; banner])%list
      end
  end.

(** The report's lines; [None] when Python raises. *)
Definition report_lines (st : stats) : option (list text) :=
  match type_lines st, hour_lines st, fact_lines st with
  | Some ts, Some hs, Some fs =>
      Some (header_lines st ++ contributor_lines st ++ ts ++ hs ++ language_lines st
            ++ release_lines st ++ fs)%list
  | _, _, _ => None
  end.

(** [generate_summary_report(stats)] *)
Definition generate_summary_report (st : stats) : option text :=
  match report_lines st with None => None | Some ls => Some (join [10] ls) end.

Definition has_prefix (p l : text) : bool :=
  if list_eq_dec Z.eq_dec (firstn (List.length p) l) p then true else false.

End Report.

(* ------------------------------------------------------------------ *)
(** ** main *)

Module Main.
Import Time Stats Music Report.

(** The [stats_json] dict of lines 288-298; [generated_at] is the string
    [datetime.now().isoformat()] of line 289. *)
Record stats_json := mkStatsJson {
  generated_at : string;
  sj_total_commits : Z;
  sj_authors : Dict.t string Z;
  sj_commit_types : Dict.t string Z;
  sj_languages : Dict.t string Z;
  recent_activity : Dict.t string Z }.

(** [{day: count for day, count in items}] *)
Definition dict_of_items (items : list (string * Z)) : Dict.t string Z :=
  fold_left (fun d '(day, count) => Dict.set string_dec day count d) items [].

(** Lines 288-298: [dict(d)] copies [d] in its order; [sorted(d.items())]
    orders the pairs by their distinct keys. *)
Definition make_stats_json (now_iso : string) (st : stats) : stats_json :=
  mkStatsJson now_iso (total_commits st) (authors st) (commit_types st) (languages st)
    (dict_of_items (Py.take_last 30 (sort_items (commits_by_day st)))).

(** [main()]: what it writes to [git_symphony.json], prints and writes to
    [cosmic_analysis.txt], and writes to [git_stats.json], before
    serialisation; [None] when it raises. [today] and [now_iso] are the two
    [datetime.now()] calls of lines 105 and 289. *)
Definition main (fromiso : string -> option datetime) (diff_tree : string -> string)
    (today : datetime) (now_iso : string) (commits_raw : string)
    : option (score * text * stats_json) :=
  match analyze_git_history fromiso diff_tree today commits_raw with
  | None => None
  | Some (commits, st) =>
      match create_musical_representation commits st with
      | None => None
      | Some musical_data =>
          match generate_summary_report st with
          | None => None
          | Some report => Some (musical_data, report, make_stats_json now_iso st)
          end
      end
  end.

End Main.

(* ------------------------------------------------------------------ *)
(** ** ISO 8601 weeks, as the spec names them *)

(** The week the spec's words describe: the ISO year and week number of
    [date.isocalendar()] (weeks start on Monday; week 1 holds the year's
    first Thursday), printed as [%G-W%V]. Not used by the program. *)
Module IsoWeek.
Import Time.

Definition isoweek1monday (y : Z) : Z :=
  let firstday := days_before_year y + 1 in
  let firstweekday := (firstday + 6) mod 7 in
  let week1monday := firstday - firstweekday in
  if firstweekday >? 3 then week1monday + 7 else week1monday.

Definition isocalendar (d : datetime) : Z * Z :=
  let today := toordinal d in
  let y := year d in
  let week := (today - isoweek1monday y) / 7 in
  if week <? 0 then (y - 1, (today - isoweek1monday (y - 1)) / 7 + 1)
  else if (week >=? 52) && (today >=? isoweek1monday (y + 1)) then (y + 1, 1)
  else (y, week + 1).

Definition iso_week_label (d : datetime) : string :=
  pad0 4 (fst (isocalendar d)) ++ "-W" ++ pad0 2 (snd (isocalendar d)).

End IsoWeek.

(* ------------------------------------------------------------------ *)
(** ** First-appearance order, as the spec names it *)

Module Enumeration.

(** The distinct elements of a sequence in the order of their first
    appearance. Not used by the program. *)
Definition first_appearances (l : list string) : list string :=
  fold_left (fun acc a => if in_dec string_dec a acc then acc else (acc ++ [a])%list) l [].

End Enumeration.

(* ------------------------------------------------------------------ *)
(** ** A sample run *)

(** A two-commit log, with [datetime.fromisoformat] and [git diff-tree]
    answered for the strings this log produces. *)
Module Samples.
Import Time.

Definition fromisoformat (s : string) : option datetime :=
  if String.eqb s "2024-01-06T10:00:00+00:00" then Some (mkDT 2024 1 6 10 0 0 0 (Some 0))
  else if String.eqb s "2024-01-07T11:30:00+00:00" then Some (mkDT 2024 1 7 11 30 0 0 (Some 0))
  else if String.eqb s "2024-01-06" then Some (mkDT 2024 1 6 0 0 0 0 None)
  else if String.eqb s "2024-01-07" then Some (mkDT 2024 1 7 0 0 0 0 None)
  else None.

Definition diff_tree (h : string) : string :=
  if String.eqb h "h1" then "src/generate_stats.py" ++ String Py.newline "README" else "index.html".

Definition today : datetime := mkDT 2026 10 19 9 0 0 0 None.

Definition log : string :=
  "h1|ann|ann@example.org|2024-01-06T10:00:00Z|add parser|" ++ String Py.newline
  "h2|bob|bob@example.org|2024-01-07T11:30:00Z|fix parser|".

End Samples.

(* ================================================================== *)
(** * Proofs *)

(** ** Association-list counters *)

Module DictFacts.

Section Facts.
Context {K : Type} (dec : forall x y : K, {x = y} + {x <> y}).

Lemma incr_cons (k k' : K) (v : Z) (d : Dict.t K Z) :
  Dict.incr dec k ((k', v) :: d) =
  if dec k k' then (k', v + 1) :: d else (k', v) :: Dict.incr dec k d.
Proof.
  unfold Dict.incr; simpl.
  destruct (dec k k'); simpl; [destruct (dec k k'); congruence|].
  destruct (Dict.get dec k d); simpl; destruct (dec k k'); congruence.
Qed.

Lemma sum_values_incr (k : K) (d : Dict.t K Z) :
  Dict.sum (Dict.values (Dict.incr dec k d)) = Dict.sum (Dict.values d) + 1.
Proof.
  induction d as [|[k' v] d IH]; [reflexivity|].
  rewrite incr_cons. destruct (dec k k'); simpl; unfold Dict.sum, Dict.values in *; simpl in *; lia.
Qed.

Lemma count_incr (k k' : K) (d : Dict.t K Z) :
  Dict.count dec k (Dict.incr dec k' d) =
  Dict.count dec k d + (if dec k k' then 1 else 0).
Proof.
  induction d as [|[k0 v] d IH].
  - unfold Dict.count, Dict.incr; simpl. destruct (dec k k'); reflexivity.
  - rewrite incr_cons. unfold Dict.count in *; simpl.
    destruct (dec k' k0) as [->|Hne]; simpl.
    + destruct (dec k k0); lia.
    + destruct (dec k k0) as [->|]; [destruct (dec k0 k'); [congruence | lia]|].
      exact IH.
Qed.

Lemma keys_incr (k : K) (d : Dict.t K Z) :
  Dict.keys (Dict.incr dec k d) =
  if in_dec dec k (Dict.keys d) then Dict.keys d else (Dict.keys d ++ [k])%list.
Proof.
  induction d as [|[k' v] d IH]; [reflexivity|].
  rewrite incr_cons. unfold Dict.keys in *; simpl.
  destruct (dec k k') as [->|Hne]; simpl.
  - destruct (dec k' k'); [|congruence]. reflexivity.
  - rewrite IH. destruct (in_dec dec k (map fst d)); destruct (dec k' k); try congruence; reflexivity.
Qed.

End Facts.

End DictFacts.

(** ** The classifier *)

Module ClassifyFacts.
Import Py Classify.

Lemma prefix_lower (kw s : string) :
  lower kw = kw -> prefix kw (lower s) = ci_prefix kw s.
Proof.
  revert s; induction kw as [|k kw IH]; intros s H; destruct s as [|c s]; simpl; auto.
  simpl in H; injection H as Hk Hkw. rewrite Hk.
  destruct (ascii_dec k (lower_char c)) as [E|E];
    destruct (Ascii.eqb_spec (lower_char c) k); try congruence; simpl; auto.
Qed.

Lemma contains_lower (kw s : string) :
  lower kw = kw -> contains kw (lower s) = ci_contains kw s.
Proof.
  intros H; induction s as [|c s IH]; simpl.
  - rewrite <- (prefix_lower kw EmptyString H). reflexivity.
  - rewrite <- IH. rewrite <- (prefix_lower kw (String c s) H). reflexivity.
Qed.

Lemma stats_branch_spec (msg : string) :
  stats_branch msg = (spec_classify msg, String.eqb (spec_classify msg) k_release).
Proof.
  unfold stats_branch, spec_classify, spec_rules; simpl.
  rewrite !contains_lower by reflexivity.
  destruct (ci_contains "release" msg); simpl; [reflexivity|].
  destruct (ci_contains "version" msg); simpl; [reflexivity|].
  destruct (ci_contains "fix" msg); simpl; [reflexivity|].
  destruct (ci_contains "add" msg); simpl; [reflexivity|].
  destruct (ci_contains "implement" msg); simpl; [reflexivity|].
  destruct (ci_contains "merge" msg); simpl; [reflexivity|].
  destruct (ci_contains "test" msg); reflexivity.
Qed.

Lemma music_commit_type_spec (msg : string) :
  music_commit_type msg = fst (stats_branch msg).
Proof.
  unfold music_commit_type, stats_branch.
  repeat match goal with |- context [if ?b then _ else _] => destruct b end; reflexivity.
Qed.

End ClassifyFacts.

(** ** Splitting and searching one-character needles *)

Module PyFacts.
Import Py.

Lemma contains_char_cons (c a : ascii) (s : string) :
  contains (String c EmptyString) (String a s) =
  Ascii.eqb a c || contains (String c EmptyString) s.
Proof.
  simpl. destruct (ascii_dec c a); destruct (Ascii.eqb_spec a c); subst; try congruence; destruct s; reflexivity.
Qed.

Lemma split_not_nil (sep : ascii) (s : string) : split sep s <> [].
Proof.
  induction s as [|c s IH]; simpl; [discriminate|].
  destruct (Ascii.eqb c sep); [discriminate|]. destruct (split sep s); discriminate.
Qed.

Lemma split_no_sep (sep : ascii) (s : string) :
  contains (String sep EmptyString) s = false -> split sep s = [s].
Proof.
  induction s as [|c s IH]; [reflexivity|].
  rewrite contains_char_cons. intros H. apply orb_false_iff in H as [H1 H2].
  simpl. rewrite H1, (IH H2). reflexivity.
Qed.

Lemma split_pieces_no_sep (sep : ascii) (s w : string) :
  In w (split sep s) -> contains (String sep EmptyString) w = false.
Proof.
  revert w; induction s as [|c s IH]; intros w Hin; simpl in Hin.
  - destruct Hin as [<-|[]]. reflexivity.
  - destruct (Ascii.eqb c sep) eqn:Ec.
    + destruct Hin as [<-|Hin]; [reflexivity|auto].
    + destruct (split sep s) as [|w0 ws] eqn:Es; [exfalso; exact (split_not_nil sep s Es)|].
      destruct Hin as [<-|Hin].
      * rewrite contains_char_cons, Ec. simpl. apply IH. left; reflexivity.
      * apply IH. right; exact Hin.
Qed.

Lemma last_item_cons (w : string) (ws : list string) :
  ws <> [] -> last_item (w :: ws) = last_item ws.
Proof. unfold last_item; destruct ws; [congruence|reflexivity]. Qed.

Lemma last_item_in (ws : list string) : ws <> [] -> In (last_item ws) ws.
Proof.
  unfold last_item; induction ws as [|w ws IH]; [congruence|intros _].
  destruct ws as [|w' ws']; [left; reflexivity|]. right; apply IH; discriminate.
Qed.

Lemma split_single (sep : ascii) (s w : string) : split sep s = [w] -> s = w.
Proof.
  revert w; induction s as [|c s IH]; intros w H; simpl in H.
  - injection H as <-. reflexivity.
  - destruct (Ascii.eqb c sep).
    + injection H as _ H. exfalso; exact (split_not_nil sep s H).
    + destruct (split sep s) as [|w0 ws] eqn:Es; [exfalso; exact (split_not_nil sep s Es)|].
      injection H as <- ->. rewrite (IH w0 eq_refl). reflexivity.
Qed.

(** [s.split(sep)[-1]] is the text after the last separator. *)
Lemma split_last (sep : ascii) (s : string) :
  contains (String sep EmptyString) s = true ->
  exists pre, s = pre ++ String sep (last_item (split sep s)).
Proof.
  induction s as [|c s IH]; [discriminate|].
  rewrite contains_char_cons. simpl.
  destruct (Ascii.eqb_spec c sep) as [->|Hne]; simpl.
  - intros _. rewrite last_item_cons by apply split_not_nil.
    destruct (contains (String sep EmptyString) s) eqn:Hs.
    + destruct (IH eq_refl) as [pre Hpre]. exists (String sep pre). simpl. f_equal. exact Hpre.
    + rewrite (split_no_sep sep s Hs). exists EmptyString. reflexivity.
  - intros H. destruct (IH H) as [pre Hpre].
    destruct (split sep s) as [|w ws] eqn:Es; [exfalso; exact (split_not_nil sep s Es)|].
    destruct ws as [|w' ws'].
    + exfalso. pose proof (split_single sep s w Es) as Hsw.
      assert (Hw : In w (split sep s)) by (rewrite Es; left; reflexivity).
      pose proof (split_pieces_no_sep sep s w Hw) as Hnw. subst w. congruence.
    + exists (String c pre). simpl. f_equal. rewrite last_item_cons by discriminate. exact Hpre.
Qed.

End PyFacts.

(** ** The aggregation loop *)

Module StatsFacts.
Import Py Time Stats.

(** A log line the specification counts: non-empty, at least five fields,
    and a 4th field that [fromisoformat] accepts after the ['Z'] rewrite. *)
Definition line_counted (fromiso : string -> option datetime) (line : string) : bool :=
  let parts := split bar line in
  negb (String.eqb line "") && (5 <=? List.length parts)%nat
  && match fromiso (replace_char "Z" "+00:00" (nth 3 parts "")) with
     | Some _ => true | None => false end.

Lemma parse_line_counted fromiso line :
  match parse_line fromiso line with Some _ => true | None => false end =
  line_counted fromiso line.
Proof.
  unfold parse_line, line_counted.
  destruct (String.eqb line ""); [reflexivity|].
  destruct (5 <=? List.length (split bar line))%nat; [|reflexivity].
  destruct (fromiso _); reflexivity.
Qed.

(** Processing the changed files touches only [file_changes] and [languages]. *)
Lemma record_files_frame out st :
  let st' := record_files out st in
  total_commits st' = total_commits st /\ authors st' = authors st /\
  commits_by_day st' = commits_by_day st /\ commits_by_hour st' = commits_by_hour st /\
  commit_types st' = commit_types st /\ release_history st' = release_history st /\
  productivity_score st' = productivity_score st.
Proof.
  unfold record_files. generalize (split newline out) as fs.
  intros fs; revert st; induction fs as [|f fs IH]; intros st; simpl; [tauto|].
  destruct (IH (record_file st f)) as (H1 & H2 & H3 & H4 & H5 & H6 & H7).
  unfold record_file in *. destruct (String.eqb f ""); simpl in *; rewrite ?H1, ?H2, ?H3, ?H4, ?H5, ?H6, ?H7; tauto.
Qed.

Lemma step_none fromiso diff acc line :
  parse_line fromiso line = None -> step fromiso diff acc line = acc.
Proof. intros H. destruct acc. unfold step. rewrite H. reflexivity. Qed.

Lemma fold_step_length fromiso diff lines acc :
  List.length (fst (fold_left (step fromiso diff) lines acc)) =
  (List.length (fst acc) + List.length (filter (line_counted fromiso) lines))%nat.
Proof.
  revert acc; induction lines as [|l ls IH]; intros [cs st]; simpl; [lia|].
  rewrite IH. rewrite <- parse_line_counted.
  unfold step. destruct (parse_line fromiso l); simpl;
    rewrite ?length_app; simpl; lia.
Qed.

Lemma replace_Z_trailing (t : string) :
  replace_char "Z" "+00:00" (t ++ "Z") = replace_char "Z" "+00:00" (t ++ "+00:00").
Proof. induction t as [|c t IH]; simpl; [reflexivity|]. rewrite IH. reflexivity. Qed.

(** The invariant of claim C3 along the loop. *)
Definition types_inv (acc : list commit * stats) : Prop :=
  Dict.sum (Dict.values (commit_types (snd acc))) = total_commits (snd acc) /\
  total_commits (snd acc) = Z.of_nat (List.length (fst acc)).

Lemma step_types_inv fromiso diff acc line :
  types_inv acc -> types_inv (step fromiso diff acc line).
Proof.
  destruct acc as [cs st]. unfold step.
  destruct (parse_line fromiso line) as [c|]; [|tauto].
  unfold types_inv; simpl. intros [H1 H2].
  destruct (record_files_frame (diff (c_hash c)) (count_commit c st)) as (F1 & _ & _ & _ & F5 & _).
  rewrite F1, F5. unfold count_commit.
  destruct (Classify.stats_branch (c_message c)) as [key rel]; simpl.
  unfold sincr. rewrite DictFacts.sum_values_incr, length_app. simpl. lia.
Qed.

Lemma fold_types_inv fromiso diff lines acc :
  types_inv acc -> types_inv (fold_left (step fromiso diff) lines acc).
Proof.
  revert acc; induction lines as [|l ls IH]; intros acc H; simpl; [exact H|].
  apply IH, step_types_inv, H.
Qed.

Lemma record_file_counts st f p e :
  Dict.count string_dec p (file_changes (record_file st f)) =
    Dict.count string_dec p (file_changes st)
    + (if negb (String.eqb f "") && String.eqb f p then 1 else 0) /\
  Dict.count string_dec e (languages (record_file st f)) =
    Dict.count string_dec e (languages st)
    + (if negb (String.eqb f "") && contains "." f
          && String.eqb (last_item (split dot f)) e then 1 else 0).
Proof.
  unfold record_file. destruct (String.eqb f "") eqn:Ef; simpl; [lia|].
  unfold sincr. rewrite DictFacts.count_incr.
  split.
  - destruct (string_dec p f) as [->|Hne]; rewrite ?String.eqb_refl; [reflexivity|].
    destruct (String.eqb_spec f p); [congruence|lia].
  - destruct (contains "." f); simpl; [|lia].
    rewrite DictFacts.count_incr.
    destruct (string_dec e (last_item (split dot f))) as [->|Hne]; rewrite ?String.eqb_refl; [reflexivity|].
    destruct (String.eqb_spec (last_item (split dot f)) e); [congruence|lia].
Qed.

End StatsFacts.

(** ** Claims on the classifier and the aggregation *)

Module AggregateClaims.
Import Py Time Stats Classify StatsFacts.

(** Claim C1 (as amended): the bucket [analyze_git_history] increments for
    a commit is the first-match classification of its message under the
    ordered, case-insensitive rules release/version, fix, add/implement,
    merge, test, else other, and a release entry is appended exactly for
    release. So a message with "release" and "fix" is release, and one with
    "fix" and "add" is fix when it has neither "release" nor "version". *)
Theorem classify_first_match :
  (forall c st,
      commit_types (count_commit c st) = sincr (spec_classify (c_message c)) (commit_types st) /\
      release_history (count_commit c st) =
        if String.eqb (spec_classify (c_message c)) k_release
        then (release_history st ++ [(c_day c, c_message c)])%list
        else release_history st) /\
  (forall msg, In (spec_classify msg) [k_release; k_fix; k_feature; k_merge; k_test; k_other]) /\
  (forall msg, ci_contains "release" msg = true -> ci_contains "fix" msg = true ->
               fst (stats_branch msg) = k_release) /\
  (forall msg, ci_contains "fix" msg = true -> ci_contains "add" msg = true ->
               ci_contains "release" msg = false -> ci_contains "version" msg = false ->
               fst (stats_branch msg) = k_fix).
Proof.
  split; [|split; [|split]].
  - intros c st. unfold count_commit. rewrite ClassifyFacts.stats_branch_spec. simpl.
    split; reflexivity.
  - intros msg. unfold spec_classify, spec_rules, first_match.
    repeat match goal with |- context [if ?b then _ else _] => destruct b end; simpl; tauto.
  - intros msg Hr Hf. rewrite ClassifyFacts.stats_branch_spec. simpl.
    unfold spec_classify, spec_rules; simpl. rewrite Hr. reflexivity.
  - intros msg Hf Ha Hr Hv. rewrite ClassifyFacts.stats_branch_spec. simpl.
    unfold spec_classify, spec_rules; simpl. rewrite Hr, Hv, Hf. reflexivity.
Qed.

(** Claim C1, counterexample: a message with both "fix" and "add" that also
    contains "release" is classified release, not fix. *)
Lemma classify_fix_add_not_always_fix :
  ci_contains "fix" "release: fix add" = true /\
  ci_contains "add" "release: fix add" = true /\
  fst (stats_branch "release: fix add") = k_release /\
  ~ (forall msg, ci_contains "fix" msg = true -> ci_contains "add" msg = true ->
                 fst (stats_branch msg) = k_fix).
Proof.
  split; [reflexivity|split; [reflexivity|split; [reflexivity|]]].
  intros H. specialize (H "release: fix add" eq_refl eq_refl). vm_compute in H. discriminate.
Qed.

(** Claim C3: after the aggregation loop the [commit_types] counts sum to
    [total_commits], which is the number of parsed records; each record adds
    one to [total_commits] and one to exactly one of the six buckets. *)
Theorem commit_types_sum_total fromiso diff raw :
  let '(commits, st) := aggregate fromiso diff raw in
  Dict.sum (Dict.values (commit_types st)) = total_commits st /\
  total_commits st = Z.of_nat (List.length commits) /\
  (forall c st0,
     total_commits (count_commit c st0) = total_commits st0 + 1 /\
     exists key, In key [k_release; k_fix; k_feature; k_merge; k_test; k_other] /\
       commit_types (count_commit c st0) = sincr key (commit_types st0)).
Proof.
  unfold aggregate.
  pose proof (fold_types_inv fromiso diff (split newline raw) ([], empty_stats)) as H.
  destruct (fold_left _ _ _) as [cs st]. destruct H as [H1 H2]; [split; reflexivity|].
  simpl in H1, H2. split; [exact H1|split; [exact H2|]].
  intros c st0. destruct (classify_first_match) as [Hc [Hin _]].
  split; [unfold count_commit; destruct (stats_branch _); reflexivity|].
  exists (spec_classify (c_message c)). split; [apply Hin|apply Hc].
Qed.

(** Claim C4: the parser yields one record per line that is non-empty, has at
    least five ['|'] fields and whose 4th field [fromisoformat] accepts; any
    other line leaves the records and every counter unchanged; and a trailing
    ['Z'] on the date field is read exactly as ["+00:00"]. *)
Theorem parsed_records_count fromiso diff raw :
  List.length (fst (aggregate fromiso diff raw)) =
    List.length (filter (line_counted fromiso) (split newline raw)) /\
  (forall acc line, line_counted fromiso line = false -> step fromiso diff acc line = acc) /\
  (forall t, replace_char "Z" "+00:00" (t ++ "Z") = replace_char "Z" "+00:00" (t ++ "+00:00")).
Proof.
  split; [|split].
  - unfold aggregate. rewrite fold_step_length. reflexivity.
  - intros acc line H. apply step_none.
    pose proof (parse_line_counted fromiso line) as E. rewrite H in E.
    destruct (parse_line fromiso line); [discriminate|reflexivity].
  - exact replace_Z_trailing.
Qed.

(** Claim C9: processing the changed-file output of one commit adds to
    [file_changes[p]] one per non-empty path equal to [p], and to
    [languages[e]] one per non-empty path that contains ['.'] and whose text
    after the last ['.'] is [e]; that text is what [split('.')[-1]] gives. *)
Theorem file_and_language_counts out st :
  let fs := split newline out in
  (forall p, Dict.count string_dec p (file_changes (record_files out st)) =
     Dict.count string_dec p (file_changes st)
     + Z.of_nat (List.length (filter (fun f => negb (String.eqb f "") && String.eqb f p) fs))) /\
  (forall e, Dict.count string_dec e (languages (record_files out st)) =
     Dict.count string_dec e (languages st)
     + Z.of_nat (List.length (filter (fun f => negb (String.eqb f "") && contains "." f
                                   && String.eqb (last_item (split dot f)) e) fs))) /\
  (forall f, contains "." f = true ->
     exists pre, f = pre ++ "." ++ last_item (split dot f) /\
                 contains "." (last_item (split dot f)) = false).
Proof.
  intros fs. split; [|split].
  - intros p. unfold record_files. fold fs. generalize st. induction fs as [|f fs' IH]; intros st0; simpl; [lia|].
    rewrite IH. destruct (record_file_counts st0 f p p) as [H _]. rewrite H.
    destruct (negb (String.eqb f "") && String.eqb f p); simpl; lia.
  - intros e. unfold record_files. fold fs. generalize st. induction fs as [|f fs' IH]; intros st0; simpl; [lia|].
    rewrite IH. destruct (record_file_counts st0 f e e) as [_ H]. rewrite H.
    destruct (negb (String.eqb f "") && contains "." f && String.eqb (last_item (split dot f)) e); simpl; lia.
  - intros f Hf. destruct (PyFacts.split_last dot f Hf) as [pre Hpre].
    exists pre. split; [exact Hpre|].
    apply (PyFacts.split_pieces_no_sep dot f). apply PyFacts.last_item_in, PyFacts.split_not_nil.
Qed.

End AggregateClaims.

(** ** Lexicographic order on strings *)

Module StrOrder.

Definition lt (a b : string) : Prop := String.compare a b = Lt.

Lemma ascii_compare_lt_trans (a b c : ascii) :
  Ascii.compare a b = Lt -> Ascii.compare b c = Lt -> Ascii.compare a c = Lt.
Proof.
  unfold Ascii.compare. rewrite !N.compare_lt_iff. lia.
Qed.

Lemma lt_trans (a b c : string) : lt a b -> lt b c -> lt a c.
Proof.
  unfold lt. revert b c; induction a as [|x a IH]; intros [|y b] [|z c]; simpl; try congruence.
  destruct (Ascii.compare x y) eqn:Exy; try congruence;
    destruct (Ascii.compare y z) eqn:Eyz; try congruence; intros H1 H2.
  - apply Ascii.compare_eq_iff in Exy, Eyz. subst.
    assert (Ascii.compare z z = Eq) as -> by (unfold Ascii.compare; apply N.compare_refl).
    exact (IH _ _ H1 H2).
  - apply Ascii.compare_eq_iff in Exy. subst. rewrite Eyz. reflexivity.
  - apply Ascii.compare_eq_iff in Eyz. subst. rewrite Exy. reflexivity.
  - rewrite (ascii_compare_lt_trans _ _ _ Exy Eyz). reflexivity.
Qed.

Lemma lt_irrefl (a : string) : ~ lt a a.
Proof.
  unfold lt. intros H. pose proof (String.compare_antisym a a) as E. rewrite H in E. discriminate.
Qed.

Lemma lt_total (a b : string) : a <> b -> lt a b \/ lt b a.
Proof.
  unfold lt. intros Hne. rewrite (String.compare_antisym b a).
  destruct (String.compare a b) eqn:E; simpl; auto.
  apply String.compare_eq_iff in E. contradiction.
Qed.

Lemma leb_false_lt (a b : string) : String.leb a b = false -> lt b a.
Proof.
  unfold String.leb, lt. rewrite (String.compare_antisym b a).
  destruct (String.compare a b); simpl; congruence.
Qed.

Lemma leb_true_neq_lt (a b : string) : String.leb a b = true -> a <> b -> lt a b.
Proof.
  unfold String.leb, lt. intros H Hne. destruct (String.compare a b) eqn:E; try congruence.
  apply String.compare_eq_iff in E. contradiction.
Qed.

Section Sort.
Context {A : Type}.

Lemma insert_item_perm (x : string * A) (l : list (string * A)) :
  Permutation (x :: l) (Music.insert_item x l).
Proof.
  induction l as [|y l IH]; simpl; [auto|].
  destruct (String.leb (fst x) (fst y)); [auto|].
  apply perm_trans with (y :: x :: l); [constructor|]. apply perm_skip, IH.
Qed.

Lemma sort_items_perm (l : list (string * A)) : Permutation l (Music.sort_items l).
Proof.
  induction l as [|x l IH]; simpl; [auto|].
  apply perm_trans with (x :: Music.sort_items l); [apply perm_skip, IH|apply insert_item_perm].
Qed.

Lemma insert_item_sorted (x : string * A) (l : list (string * A)) :
  ~ In (fst x) (map fst l) ->
  StronglySorted lt (map fst l) -> StronglySorted lt (map fst (Music.insert_item x l)).
Proof.
  induction l as [|y l IH]; intros Hnin Hs; simpl; [repeat constructor|].
  simpl in Hnin. apply StronglySorted_inv in Hs as [Hs Hall].
  destruct (String.leb (fst x) (fst y)) eqn:E; simpl.
  - assert (Hxy : lt (fst x) (fst y)) by (apply leb_true_neq_lt; [exact E|intros Heq; apply Hnin; left; symmetry; exact Heq]).
    constructor; [constructor; assumption|].
    constructor; [exact Hxy|]. rewrite Forall_forall in *. intros z Hz. exact (lt_trans _ _ _ Hxy (Hall z Hz)).
  - constructor; [apply IH; tauto|].
    pose proof (Permutation_map fst (insert_item_perm x l)) as P.
    rewrite Forall_forall in *. intros z Hz.
    apply (Permutation_in _ (Permutation_sym P)) in Hz. simpl in Hz.
    destruct Hz as [<-|Hz]; [apply leb_false_lt; exact E|apply Hall, Hz].
Qed.

Lemma sort_items_sorted (l : list (string * A)) :
  NoDup (map fst l) -> StronglySorted lt (map fst (Music.sort_items l)).
Proof.
  induction l as [|x l IH]; intros Hnd; simpl; [constructor|].
  simpl in Hnd. apply NoDup_cons_iff in Hnd as [Hnin Hnd].
  apply insert_item_sorted; [|apply IH, Hnd].
  intros Hin. apply Hnin.
  apply (Permutation_in _ (Permutation_sym (Permutation_map fst (sort_items_perm l)))), Hin.
Qed.

End Sort.

End StrOrder.

(** ** Keyed updates of association lists *)

Module DictSetFacts.

Section Facts.
Context {K V : Type} (dec : forall x y : K, {x = y} + {x <> y}).

Lemma keys_set (k : K) (v : V) (d : Dict.t K V) :
  Dict.keys (Dict.set dec k v d) =
  if in_dec dec k (Dict.keys d) then Dict.keys d else (Dict.keys d ++ [k])%list.
Proof.
  induction d as [|[k' v'] d IH]; [reflexivity|].
  unfold Dict.keys in *; simpl.
  destruct (dec k k') as [->|Hne]; simpl.
  - destruct (dec k' k'); [reflexivity|congruence].
  - rewrite IH. destruct (in_dec dec k (map fst d)); destruct (dec k' k); try congruence; reflexivity.
Qed.

Lemma nodup_set (k : K) (v : V) (d : Dict.t K V) :
  NoDup (Dict.keys d) -> NoDup (Dict.keys (Dict.set dec k v d)).
Proof.
  intros H. rewrite keys_set. destruct (in_dec dec k (Dict.keys d)) as [_|Hn]; [exact H|].
  apply NoDup_app; [exact H|constructor; [intros []|constructor]|].
  intros x Hx [<-|[]]. contradiction.
Qed.

Lemma get_in (k : K) (v : V) (d : Dict.t K V) : Dict.get dec k d = Some v -> In (k, v) d.
Proof.
  induction d as [|[k' v'] d IH]; simpl; [discriminate|].
  destruct (dec k k') as [->|]; [intros H; injection H as ->; left; reflexivity|].
  intros H; right; apply IH, H.
Qed.

Lemma in_get (k : K) (v : V) (d : Dict.t K V) :
  NoDup (Dict.keys d) -> In (k, v) d -> Dict.get dec k d = Some v.
Proof.
  induction d as [|[k' v'] d IH]; simpl; [intros _ []|].
  intros Hnd Hin. apply NoDup_cons_iff in Hnd as [Hn Hnd].
  destruct (dec k k') as [->|Hne].
  - destruct Hin as [E|Hin]; [injection E as ->; reflexivity|].
    exfalso; apply Hn. apply (in_map fst) in Hin. exact Hin.
  - destruct Hin as [E|Hin]; [injection E as -> ->; congruence|]. apply IH; assumption.
Qed.

Lemma get_none (k : K) (d : Dict.t K V) :
  Dict.get dec k d = None -> ~ In k (Dict.keys d).
Proof.
  induction d as [|[k' v'] d IH]; simpl; [auto|].
  destruct (dec k k'); [discriminate|]. intros H [E|Hin]; [congruence|exact (IH H Hin)].
Qed.

Lemma in_set (k w : K) (v l : V) (d : Dict.t K V) :
  NoDup (Dict.keys d) ->
  In (w, l) (Dict.set dec k v d) <-> (w = k /\ l = v) \/ (w <> k /\ In (w, l) d).
Proof.
  induction d as [|[k' v'] d IH]; intros Hnd; simpl.
  - split; [intros [E|[]]; injection E as -> ->; left; split; reflexivity|].
    intros [[-> ->]|[_ []]]; left; reflexivity.
  - simpl in Hnd. apply NoDup_cons_iff in Hnd as [Hn Hnd].
    destruct (dec k k') as [->|Hne]; simpl.
    + split.
      * intros [E|Hin]; [injection E as -> ->; left; split; reflexivity|].
        right. split; [|right; exact Hin]. intros ->. apply Hn, (in_map fst _ _ Hin).
      * intros [[-> ->]|[Hw [E|Hin]]]; [left; reflexivity|injection E as ->; congruence|right; exact Hin].
    + rewrite IH by exact Hnd. split.
      * intros [E|[[-> ->]|[Hw Hin]]]; [injection E as -> ->|left; split; reflexivity|].
        -- right; split; [intros E; apply Hne; symmetry; exact E|left; reflexivity].
        -- right; split; [exact Hw|right; exact Hin].
      * intros [[-> ->]|[Hw [E|Hin]]]; [right; left; split; reflexivity|left; exact E|].
        right; right; split; assumption.
Qed.

End Facts.

End DictSetFacts.

(** ** The weekly grouping and the movements *)

Module MusicFacts.
Import Py Time Stats Music.

Definition lbl (c : commit) : string := week_label (c_date c).

Definition of_week (w : string) (c : commit) : bool := String.eqb (lbl c) w.

Definition group_inv (d : Dict.t string (list commit)) (seen : list commit) : Prop :=
  NoDup (Dict.keys d) /\
  (forall w, In w (Dict.keys d) <-> In w (map lbl seen)) /\
  (forall w l, In (w, l) d -> l = filter (of_week w) seen).

Lemma filter_of_week_nil (w : string) (seen : list commit) :
  ~ In w (map lbl seen) -> filter (of_week w) seen = [].
Proof.
  induction seen as [|c seen IH]; simpl; [reflexivity|].
  intros H. unfold of_week at 1. destruct (String.eqb_spec (lbl c) w); [tauto|]. apply IH; tauto.
Qed.

Lemma add_to_week_inv d seen c :
  group_inv d seen -> group_inv (add_to_week d c) (seen ++ [c])%list.
Proof.
  intros (Hnd & Hk & Hv). unfold add_to_week. fold (lbl c).
  set (old := match Dict.get string_dec (lbl c) d with Some l => l | None => [] end).
  assert (Hold : old = filter (of_week (lbl c)) seen).
  { unfold old. destruct (Dict.get string_dec (lbl c) d) as [l|] eqn:E.
    - apply Hv, DictSetFacts.get_in with (dec := string_dec), E.
    - symmetry. apply filter_of_week_nil. rewrite <- Hk. apply DictSetFacts.get_none with (dec := string_dec), E. }
  split; [apply DictSetFacts.nodup_set, Hnd|split].
  - intros w. rewrite DictSetFacts.keys_set, map_app. simpl.
    destruct (in_dec string_dec (lbl c) (Dict.keys d)) as [Hin|Hn].
    + rewrite Hk, in_app_iff. simpl. split; [tauto|]. intros [H|[<-|[]]]; [exact H|rewrite <- Hk; exact Hin].
    + rewrite !in_app_iff, Hk. simpl. tauto.
  - intros w l Hin. apply (DictSetFacts.in_set string_dec) in Hin; [|exact Hnd].
    rewrite filter_app. simpl. unfold of_week at 2.
    destruct Hin as [[-> ->]|[Hw Hin]].
    + rewrite String.eqb_refl, Hold. reflexivity.
    + destruct (String.eqb_spec (lbl c) w) as [E|_]; [congruence|]. rewrite app_nil_r. apply Hv, Hin.
Qed.

Lemma group_by_week_inv (commits : list commit) : group_inv (group_by_week commits) commits.
Proof.
  unfold group_by_week.
  assert (H : forall cs d seen, group_inv d seen ->
            group_inv (fold_left add_to_week cs d) (seen ++ cs)%list).
  { induction cs as [|c cs IH]; intros d seen Hd; simpl; [rewrite app_nil_r; exact Hd|].
    replace (seen ++ c :: cs)%list with ((seen ++ [c]) ++ cs)%list by (rewrite <- app_assoc; reflexivity).
    apply IH, add_to_week_inv, Hd. }
  apply (H commits [] []).
  split; [constructor|split; [simpl; tauto|intros w l []]].
Qed.

(** Every note comes out: the lookup in [note_map] never fails. *)
Lemma music_type_in (msg : string) :
  In (Classify.music_commit_type msg)
     [Classify.k_release; Classify.k_fix; Classify.k_feature;
      Classify.k_merge; Classify.k_test; Classify.k_other].
Proof.
  unfold Classify.music_commit_type.
  repeat match goal with |- context [if ?b then _ else _] => destruct b end; simpl; tauto.
Qed.

Lemma make_note_some ai c : exists n, make_note ai c = Some n.
Proof.
  unfold make_note. pose proof (music_type_in (c_message c)) as H.
  destruct H as [<-|[<-|[<-|[<-|[<-|[<-|[]]]]]]]; eexists; reflexivity.
Qed.

Lemma map_option_forall2 {A B} (f : A -> option B) (l : list A) :
  (forall x, In x l -> exists y, f x = Some y) ->
  exists ys, map_option f l = Some ys /\ Forall2 (fun x y => f x = Some y) l ys.
Proof.
  induction l as [|x l IH]; intros H; simpl; [exists []; split; [reflexivity|constructor]|].
  destruct (H x (or_introl eq_refl)) as [y Hy]. rewrite Hy.
  destruct IH as [ys [E F]]; [intros z Hz; apply H; right; exact Hz|].
  rewrite E. exists (y :: ys). split; [reflexivity|constructor; assumption].
Qed.

Lemma strongly_sorted_app_lt (l1 l2 : list string) x y :
  StronglySorted StrOrder.lt (l1 ++ l2) -> In x l1 -> In y l2 -> StrOrder.lt x y.
Proof.
  induction l1 as [|a l1 IH]; simpl; [intros _ []|].
  intros Hs Hx Hy. apply StronglySorted_inv in Hs as [Hs Hall].
  destruct Hx as [<-|Hx]; [|exact (IH Hs Hx Hy)].
  rewrite Forall_forall in Hall. apply Hall, in_or_app. right; exact Hy.
Qed.

Lemma count_in_weeks_cons (w : string) (ws : list string) (cs : list commit) :
  ~ In w ws ->
  List.length (filter (fun c => existsb (String.eqb (lbl c)) (w :: ws)) cs) =
  (List.length (filter (of_week w) cs)
   + List.length (filter (fun c => existsb (String.eqb (lbl c)) ws) cs))%nat.
Proof.
  intros Hn. unfold of_week. induction cs as [|c cs IHc]; [reflexivity|].
  simpl in IHc |- *.
  destruct (String.eqb (lbl c) w) eqn:E; simpl.
  - apply String.eqb_eq in E.
    assert (existsb (String.eqb (lbl c)) ws = false) as ->.
    { apply Bool.not_true_iff_false. intros Ht. apply existsb_exists in Ht as [x [Hx Ex]].
      apply String.eqb_eq in Ex. subst. contradiction. }
    simpl. lia.
  - destruct (existsb (String.eqb (lbl c)) ws); simpl; lia.
Qed.

Lemma count_in_weeks (ws : list string) (cs : list commit) :
  NoDup ws ->
  fold_right Nat.add 0%nat (map (fun w => List.length (filter (of_week w) cs)) ws) =
  List.length (filter (fun c => existsb (String.eqb (lbl c)) ws) cs).
Proof.
  induction ws as [|w ws IH]; intros Hnd; simpl.
  - induction cs; simpl; auto.
  - apply NoDup_cons_iff in Hnd as [Hn Hnd]. rewrite IH by exact Hnd.
    symmetry. apply (count_in_weeks_cons w ws cs Hn).
Qed.

End MusicFacts.

(** ** Week labels follow the calendar *)

Module WeekFacts.
Import Time.

(** Chronological order of local calendar dates. *)
Definition date_le (d1 d2 : datetime) : Prop :=
  year d1 < year d2 \/
  (year d1 = year d2 /\ (month d1 < month d2 \/ (month d1 = month d2 /\ day d1 <= day d2))).

Fixpoint all_in_range (f : Z -> bool) (lo : Z) (n : nat) : bool :=
  match n with O => true | S n' => f lo && all_in_range f (lo + 1) n' end.

Lemma all_in_range_spec f lo n :
  all_in_range f lo n = true -> forall z, lo <= z < lo + Z.of_nat n -> f z = true.
Proof.
  revert lo; induction n as [|n IH]; intros lo H z Hz; simpl in *; [lia|].
  apply andb_true_iff in H as [H1 H2].
  destruct (Z.eq_dec z lo) as [->|Hne]; [exact H1|]. apply (IH (lo + 1) H2). lia.
Qed.

Definition fmt4 (y : Z) : string :=
  String (digit (y / 1000)) (String (digit (y / 100 mod 10))
    (String (digit (y / 10 mod 10)) (String (digit (y mod 10)) EmptyString))).

Definition fmt2 (w : Z) : string :=
  String (digit (w / 10)) (String (digit (w mod 10)) EmptyString).

Definition year_ok (y : Z) : bool :=
  String.eqb (pad0 4 y) (fmt4 y) &&
  (y =? 1000 * (y / 1000) + 100 * (y / 100 mod 10) + 10 * (y / 10 mod 10) + y mod 10)
  && (y / 1000 <? 10).

Definition week_ok (w : Z) : bool :=
  String.eqb (pad0 2 w) (fmt2 w) && (w =? 10 * (w / 10) + w mod 10) && (w / 10 <? 10).

Lemma year_ok_all : all_in_range year_ok 0 (Z.to_nat 10000) = true.
Proof. vm_compute. reflexivity. Qed.

Lemma week_ok_all : all_in_range week_ok 0 (Z.to_nat 100) = true.
Proof. vm_compute. reflexivity. Qed.

Lemma year_fmt (y : Z) : 0 <= y <= 9999 ->
  pad0 4 y = fmt4 y /\
  y = 1000 * (y / 1000) + 100 * (y / 100 mod 10) + 10 * (y / 10 mod 10) + y mod 10 /\
  0 <= y / 1000 < 10.
Proof.
  intros H. pose proof (all_in_range_spec _ _ _ year_ok_all y ltac:(simpl; lia)) as E.
  unfold year_ok in E. apply andb_true_iff in E as [E E3]. apply andb_true_iff in E as [E1 E2].
  apply String.eqb_eq in E1. apply Z.eqb_eq in E2. apply Z.ltb_lt in E3.
  split; [exact E1|split; [exact E2|]]. split; [apply Z.div_pos; lia|exact E3].
Qed.

Lemma week_fmt (w : Z) : 0 <= w <= 99 ->
  pad0 2 w = fmt2 w /\ w = 10 * (w / 10) + w mod 10 /\ 0 <= w / 10 < 10.
Proof.
  intros H. pose proof (all_in_range_spec _ _ _ week_ok_all w ltac:(simpl; lia)) as E.
  unfold week_ok in E. apply andb_true_iff in E as [E E3]. apply andb_true_iff in E as [E1 E2].
  apply String.eqb_eq in E1. apply Z.eqb_eq in E2. apply Z.ltb_lt in E3.
  split; [exact E1|split; [exact E2|]]. split; [apply Z.div_pos; lia|exact E3].
Qed.

Lemma digit_compare (a b : Z) : 0 <= a <= 9 -> 0 <= b <= 9 ->
  Ascii.compare (digit a) (digit b) = Z.compare a b.
Proof.
  intros Ha Hb.
  assert (a = 0 \/ a = 1 \/ a = 2 \/ a = 3 \/ a = 4 \/ a = 5 \/ a = 6 \/ a = 7 \/ a = 8 \/ a = 9)
    as Ea by lia.
  assert (b = 0 \/ b = 1 \/ b = 2 \/ b = 3 \/ b = 4 \/ b = 5 \/ b = 6 \/ b = 7 \/ b = 8 \/ b = 9)
    as Eb by lia.
  repeat (destruct Ea as [->|Ea]); try (rewrite Ea);
    repeat (destruct Eb as [->|Eb]); try (rewrite Eb); reflexivity.
Qed.

Lemma compare_cons (c1 c2 : ascii) (s1 s2 : string) :
  String.compare (String c1 s1) (String c2 s2) =
  match Ascii.compare c1 c2 with Eq => String.compare s1 s2 | r => r end.
Proof. reflexivity. Qed.

Lemma compare_digit_step (a b : Z) (s1 s2 : string) : 0 <= a <= 9 -> 0 <= b <= 9 ->
  String.compare (String (digit a) s1) (String (digit b) s2) =
  match Z.compare a b with Eq => String.compare s1 s2 | r => r end.
Proof. intros Ha Hb. rewrite compare_cons, digit_compare by assumption. reflexivity. Qed.

End WeekFacts.

Module WeekMono.
Import Time WeekFacts.

Definition dbm_tab (l : bool) (m : Z) : Z :=
  let base := nth (Z.to_nat (m - 1)) [0; 31; 59; 90; 120; 151; 181; 212; 243; 273; 304; 334] 0 in
  if (m >? 2) && l then base + 1 else base.

Definition dim_tab (l : bool) (m : Z) : Z :=
  if m =? 2 then (if l then 29 else 28)
  else if (m =? 4) || (m =? 6) || (m =? 9) || (m =? 11) then 30 else 31.

Definition month_ok (l : bool) (m1 : Z) : bool :=
  (0 <=? dbm_tab l m1) && (dbm_tab l m1 + dim_tab l m1 <=? 366) &&
  all_in_range (fun m2 => dbm_tab l m1 + dim_tab l m1 <=? dbm_tab l m2) (m1 + 1) (Z.to_nat (12 - m1)).

Lemma months_ok (l : bool) : all_in_range (month_ok l) 1 12 = true.
Proof. destruct l; vm_compute; reflexivity. Qed.

Lemma month_facts (y m1 : Z) : 1 <= m1 <= 12 ->
  0 <= days_before_month y m1 /\ days_before_month y m1 + days_in_month y m1 <= 366 /\
  forall m2, m1 < m2 <= 12 -> days_before_month y m1 + days_in_month y m1 <= days_before_month y m2.
Proof.
  intros Hm.
  pose proof (all_in_range_spec _ _ _ (months_ok (is_leap y)) m1 ltac:(simpl; lia)) as E.
  unfold month_ok in E. apply andb_true_iff in E as [E E3]. apply andb_true_iff in E as [E1 E2].
  apply Z.leb_le in E1, E2.
  change (days_before_month y m1) with (dbm_tab (is_leap y) m1).
  change (days_in_month y m1) with (dim_tab (is_leap y) m1).
  split; [exact E1|split; [exact E2|]].
  intros m2 Hm2. change (days_before_month y m2) with (dbm_tab (is_leap y) m2).
  apply Z.leb_le. apply (all_in_range_spec _ _ _ E3). lia.
Qed.

Lemma yday_range (d : datetime) : valid d -> 0 <= yday d <= 365.
Proof.
  intros (Hy & Hm & Hd & _). unfold yday.
  pose proof (month_facts (year d) (month d) Hm) as (A & B & _). lia.
Qed.

Lemma yday_mono (d1 d2 : datetime) : valid d1 -> valid d2 -> year d1 = year d2 ->
  (month d1 < month d2 \/ (month d1 = month d2 /\ day d1 <= day d2)) -> yday d1 <= yday d2.
Proof.
  intros (Hy1 & Hm1 & Hd1 & _) (Hy2 & Hm2 & Hd2 & _) Hy Ho. unfold yday. rewrite <- Hy in *.
  destruct Ho as [Hlt|[Heq Hle]].
  - pose proof (month_facts (year d1) (month d1) Hm1) as (_ & _ & C).
    specialize (C (month d2) ltac:(lia)). lia.
  - rewrite Heq. lia.
Qed.

Lemma tm_wday_mod (d : datetime) :
  tm_wday d = (days_before_year (year d) + 1 + yday d) mod 7.
Proof.
  unfold tm_wday, weekday, toordinal, yday.
  rewrite Z.add_mod_idemp_l by lia.
  replace (days_before_year (year d) + days_before_month (year d) (month d) + day d + 6 + 1)
    with (days_before_year (year d) + 1 + (days_before_month (year d) (month d) + day d - 1) + 1 * 7)
    by lia.
  apply Z.mod_add. lia.
Qed.

(** [%U] splits as a year-dependent offset plus a term monotone in the day of the year. *)
Lemma week_U_split (d : datetime) :
  week_U d = (days_before_year (year d) + 1 + yday d) / 7 + (7 - (days_before_year (year d) + 1)) / 7.
Proof.
  unfold week_U. rewrite tm_wday_mod.
  set (K := days_before_year (year d) + 1).
  rewrite (Z.mod_eq (K + yday d) 7) by lia.
  replace (yday d + 7 - (K + yday d - 7 * ((K + yday d) / 7)))
    with ((K + yday d) / 7 * 7 + (7 - K)) by lia.
  apply Z.div_add_l. lia.
Qed.

Lemma week_U_range (d : datetime) : valid d -> 0 <= week_U d <= 53.
Proof.
  intros V. pose proof (yday_range d V) as R. unfold week_U.
  pose proof (Z.mod_pos_bound (weekday d + 1) 7 ltac:(lia)) as B. unfold tm_wday.
  split; [apply Z.div_pos; lia|].
  apply Z.le_trans with (372 / 7); [apply Z.div_le_mono; lia|reflexivity].
Qed.

Lemma week_U_mono (d1 d2 : datetime) : valid d1 -> valid d2 -> year d1 = year d2 ->
  (month d1 < month d2 \/ (month d1 = month d2 /\ day d1 <= day d2)) -> week_U d1 <= week_U d2.
Proof.
  intros V1 V2 Hy Ho. pose proof (yday_mono d1 d2 V1 V2 Hy Ho) as Hd.
  rewrite !week_U_split, Hy. apply Z.add_le_mono_r, Z.div_le_mono; lia.
Qed.

Lemma step_lt (a b : Z) (s1 s2 : string) : 0 <= a <= 9 -> 0 <= b <= 9 -> a < b ->
  String.compare (String (digit a) s1) (String (digit b) s2) = Lt.
Proof. intros Ha Hb H. rewrite compare_digit_step by assumption. apply Z.compare_lt_iff in H. rewrite H. reflexivity. Qed.

Lemma step_eq (a b : Z) (s1 s2 : string) : 0 <= a <= 9 -> a = b ->
  String.compare (String (digit a) s1) (String (digit b) s2) = String.compare s1 s2.
Proof. intros Ha <-. rewrite compare_digit_step by assumption. rewrite Z.compare_refl. reflexivity. Qed.

Lemma step_same (c : ascii) (s1 s2 : string) :
  String.compare (String c s1) (String c s2) = String.compare s1 s2.
Proof.
  rewrite compare_cons. assert (Ascii.compare c c = Eq) as -> by (unfold Ascii.compare; apply N.compare_refl).
  reflexivity.
Qed.

Ltac digit_step :=
  match goal with
  | |- String.compare (String (digit ?a) _) (String (digit ?b) _) <> Gt =>
      let Hab := fresh "Hab" in
      destruct (Z.lt_trichotomy a b) as [Hab|[Hab|Hab]];
      [rewrite step_lt by lia; congruence | rewrite step_eq by lia | exfalso; lia]
  end.

End WeekMono.

Module WeekOrder.
Import Time WeekFacts WeekMono.

(** A later date never gets a lexicographically smaller [%Y-W%U] label. *)
Lemma week_label_mono (d1 d2 : datetime) : valid d1 -> valid d2 -> date_le d1 d2 ->
  String.compare (week_label d1) (week_label d2) <> Gt.
Proof.
  intros V1 V2 Hle.
  assert (Hc : year d1 < year d2 \/ (year d1 = year d2 /\ week_U d1 <= week_U d2)).
  { destruct Hle as [H|[H Ho]]; [left; exact H|right; split; [exact H|]].
    apply week_U_mono; assumption. }
  pose proof V1 as (Y1 & _). pose proof V2 as (Y2 & _).
  pose proof (year_fmt (year d1) ltac:(lia)) as (P1 & E1 & B1).
  pose proof (year_fmt (year d2) ltac:(lia)) as (P2 & E2 & B2).
  pose proof (week_U_range d1 V1) as W1. pose proof (week_U_range d2 V2) as W2.
  pose proof (week_fmt (week_U d1) ltac:(lia)) as (Q1 & F1 & C1).
  pose proof (week_fmt (week_U d2) ltac:(lia)) as (Q2 & F2 & C2).
  unfold week_label. rewrite P1, P2, Q1, Q2. unfold fmt4, fmt2.
  pose proof (Z.mod_pos_bound (year d1 / 100) 10 ltac:(lia)).
  pose proof (Z.mod_pos_bound (year d1 / 10) 10 ltac:(lia)).
  pose proof (Z.mod_pos_bound (year d1) 10 ltac:(lia)).
  pose proof (Z.mod_pos_bound (year d2 / 100) 10 ltac:(lia)).
  pose proof (Z.mod_pos_bound (year d2 / 10) 10 ltac:(lia)).
  pose proof (Z.mod_pos_bound (year d2) 10 ltac:(lia)).
  pose proof (Z.mod_pos_bound (week_U d1) 10 ltac:(lia)).
  pose proof (Z.mod_pos_bound (week_U d2) 10 ltac:(lia)).
  set (a1 := year d1 / 1000) in *. set (b1 := year d1 / 100 mod 10) in *.
  set (c1 := year d1 / 10 mod 10) in *. set (e1 := year d1 mod 10) in *.
  set (a2 := year d2 / 1000) in *. set (b2 := year d2 / 100 mod 10) in *.
  set (c2 := year d2 / 10 mod 10) in *. set (e2 := year d2 mod 10) in *.
  set (u1 := week_U d1 / 10) in *. set (v1 := week_U d1 mod 10) in *.
  set (u2 := week_U d2 / 10) in *. set (v2 := week_U d2 mod 10) in *.
  clearbody a1 b1 c1 e1 a2 b2 c2 e2 u1 v1 u2 v2.
  cbn [String.append].
  do 4 digit_step.
  rewrite !step_same.
  do 2 digit_step.
  discriminate.
Qed.

End WeekOrder.

(** ** The retained weeks *)

Module RetainFacts.
Import Py Time Stats Music MusicFacts.

Lemma nodup_same_length (l1 l2 : list string) :
  NoDup l1 -> NoDup l2 -> (forall x, In x l1 <-> In x l2) -> List.length l1 = List.length l2.
Proof.
  intros N1 N2 H. apply Nat.le_antisymm; apply NoDup_incl_length; try assumption;
    intros x Hx; apply H; exact Hx.
Qed.

Lemma in_skipn_in {A} (k : nat) (x : A) (l : list A) : In x (skipn k l) -> In x l.
Proof. intros H. rewrite <- (firstn_skipn k l). apply in_or_app. right; exact H. Qed.

Lemma retained_facts (cs : list commit) :
  let S := sort_items (group_by_week cs) in
  let R := retained_weeks cs in
  (exists P, map fst S = (P ++ map fst R)%list) /\
  StronglySorted StrOrder.lt (map fst S) /\
  NoDup (map fst S) /\
  (forall w, In w (map fst S) <-> In w (map lbl cs)) /\
  (forall w l, In (w, l) R -> l = filter (of_week w) cs) /\
  List.length R = Nat.min 10 (List.length S) /\
  List.length S = List.length (nodup string_dec (map lbl cs)).
Proof.
  intros S R.
  pose proof (group_by_week_inv cs) as (Hnd & Hk & Hv).
  set (G := group_by_week cs) in *.
  pose proof (StrOrder.sort_items_perm G) as HP. fold S in HP.
  pose proof (Permutation_map fst HP) as HPk.
  assert (HR : R = skipn (List.length S - 10) S) by reflexivity.
  assert (HndS : NoDup (map fst S)) by (apply (Permutation_NoDup HPk), Hnd).
  assert (HinS : forall w, In w (map fst S) <-> In w (map lbl cs)).
  { intros w. rewrite <- Hk. unfold Dict.keys. split; intros H.
    - apply (Permutation_in _ (Permutation_sym HPk)), H.
    - apply (Permutation_in _ HPk), H. }
  split; [|split; [|split; [exact HndS|split; [exact HinS|split; [|split]]]]].
  - exists (map fst (firstn (List.length S - 10) S)). rewrite HR, <- map_app, firstn_skipn. reflexivity.
  - apply StrOrder.sort_items_sorted, Hnd.
  - intros w l Hin. rewrite HR in Hin. apply in_skipn_in in Hin.
    apply Hv, (Permutation_in _ (Permutation_sym HP)), Hin.
  - rewrite HR, length_skipn. lia.
  - rewrite <- (length_map fst S). apply nodup_same_length; [exact HndS|apply NoDup_nodup|].
    intros w. rewrite nodup_In. apply HinS.
Qed.

End RetainFacts.

Module MovementFacts.
Import Py Time Stats Music MusicFacts.

Lemma map_option_some {A B} (f : A -> option B) (l : list A) (ys : list B) :
  map_option f l = Some ys -> Forall2 (fun x y => f x = Some y) l ys.
Proof.
  revert ys; induction l as [|x l IH]; intros ys; simpl.
  - intros H. injection H as <-. constructor.
  - destruct (f x) as [y|] eqn:E; [|discriminate].
    destruct (map_option f l) as [zs|] eqn:E2; [|discriminate].
    intros H. injection H as <-. constructor; [exact E|apply IH; reflexivity].
Qed.

Lemma forall2_impl_in {A B} (P Q : A -> B -> Prop) (l : list A) (ys : list B) :
  Forall2 P l ys -> (forall x y, In x l -> P x y -> Q x y) -> Forall2 Q l ys.
Proof.
  induction 1 as [|x y l ys Hxy Hr IH]; intros H; constructor.
  - apply H; [left; reflexivity|exact Hxy].
  - apply IH. intros a b Ha. apply H. right; exact Ha.
Qed.

Lemma strongly_sorted_app_r (l1 l2 : list string) :
  StronglySorted StrOrder.lt (l1 ++ l2) -> StronglySorted StrOrder.lt l2.
Proof.
  induction l1 as [|a l1 IH]; simpl; [auto|]. intros H. apply StronglySorted_inv in H as [H _]. auto.
Qed.

Definition movement_ok (cs : list commit) (ai : Dict.t string string)
    (item : string * list commit) (m : movement) : Prop :=
  name m = "Week of " ++ fst item /\ snd item = filter (of_week (fst item)) cs /\
  Forall2 (fun c n => make_note ai c = Some n) (snd item) (notes m).

Lemma movements_exist (cs : list commit) (st : stats) :
  exists sc, create_musical_representation cs st = Some sc /\
  Forall2 (movement_ok cs (author_instruments st)) (retained_weeks cs) (movements sc).
Proof.
  set (ai := author_instruments st).
  pose proof (RetainFacts.retained_facts cs) as (_ & _ & _ & _ & Hv & _).
  destruct (map_option_forall2 (make_movement ai) (retained_weeks cs)) as [ms [E F]].
  - intros [w l] _. unfold make_movement.
    destruct (map_option_forall2 (make_note ai) l) as [ns [E2 _]]; [intros c _; apply make_note_some|].
    rewrite E2. eexists; reflexivity.
  - unfold create_musical_representation. fold ai. rewrite E. eexists; split; [reflexivity|]. simpl.
    apply (forall2_impl_in _ _ _ _ F). intros [w l] m Hin Hm. unfold make_movement in Hm.
    destruct (map_option (make_note ai) l) as [ns|] eqn:E3; [|discriminate].
    injection Hm as <-. split; [reflexivity|split; [apply (Hv w l Hin)|]].
    apply map_option_some, E3.
Qed.

Lemma notes_count (cs : list commit) ai (R : list (string * list commit)) (ms : list movement) :
  Forall2 (movement_ok cs ai) R ms ->
  List.length (flat_map notes ms) =
  fold_right Nat.add 0%nat (map (fun w => List.length (filter (of_week w) cs)) (map fst R)).
Proof.
  induction 1 as [|[w l] m R ms (Hn & Hl & Hf) Hr IH]; simpl; [reflexivity|].
  rewrite length_app, IH. simpl in Hl, Hf. rewrite <- (Forall2_length Hf), Hl. reflexivity.
Qed.

End MovementFacts.

(** ** Claims on the musical encoder *)

Module MusicClaims.
Import Py Time Stats Music MusicFacts MovementFacts.

(** C6 (amended). The encoder groups the commits by their [%Y-W%U] label
    (year, then the Sunday-based week number of [strftime('%U')]), not by ISO
    week. It always returns a score. Its movements follow the retained
    weeks one to one, named "Week of <label>", each holding exactly one note
    per commit of that week in stream order. The retained labels are
    distinct and strictly ascending. There are min(10, number of distinct
    labels) of them, each the label of some commit. Every commit label left
    out sorts below every retained one, and for valid dates its commit is
    strictly earlier, by calendar date, than every commit of a retained
    week. The total number of notes is the number of commits in retained
    weeks. No commits give no movements. *)
Theorem weekly_movements (cs : list commit) (st : stats) :
  let R := retained_weeks cs in
  exists sc, create_musical_representation cs st = Some sc /\
  Forall2 (fun item m =>
             name m = "Week of " ++ fst item /\ snd item = filter (of_week (fst item)) cs /\
             Forall2 (fun c n => make_note (author_instruments st) c = Some n) (snd item) (notes m))
          R (movements sc) /\
  StronglySorted StrOrder.lt (map fst R) /\
  List.length R = Nat.min 10 (List.length (nodup string_dec (map lbl cs))) /\
  (forall w, In w (map fst R) -> In w (map lbl cs)) /\
  (forall c w, In c cs -> ~ In (lbl c) (map fst R) -> In w (map fst R) -> StrOrder.lt (lbl c) w) /\
  (forall c c', In c cs -> In c' cs -> valid (c_date c) -> valid (c_date c') ->
     ~ In (lbl c) (map fst R) -> In (lbl c') (map fst R) -> ~ WeekFacts.date_le (c_date c') (c_date c)) /\
  List.length (flat_map notes (movements sc)) =
    List.length (filter (fun c => existsb (String.eqb (lbl c)) (map fst R)) cs) /\
  (cs = [] -> movements sc = []).
Proof.
  intros R.
  pose proof (RetainFacts.retained_facts cs) as ([P HP] & Hs & Hnd & Hin & _ & Hlen & Hlen2).
  fold R in HP, Hlen.
  destruct (movements_exist cs st) as [sc [E F]]. fold R in F.
  assert (HinR : forall w, In w (map fst R) -> In w (map lbl cs)).
  { intros w Hw. apply Hin. rewrite HP. apply in_or_app. right; exact Hw. }
  assert (Hout : forall c w, In c cs -> ~ In (lbl c) (map fst R) -> In w (map fst R) ->
                   StrOrder.lt (lbl c) w).
  { intros c w Hc Hn Hw. rewrite HP in Hs. apply (strongly_sorted_app_lt P (map fst R)); [exact Hs| |exact Hw].
    assert (Hl : In (lbl c) (map fst (sort_items (group_by_week cs)))) by (apply Hin, in_map, Hc).
    rewrite HP in Hl. apply in_app_or in Hl as [Hl|Hl]; [exact Hl|contradiction]. }
  exists sc. split; [exact E|]. split; [exact F|]. split.
  { rewrite HP in Hs. apply (strongly_sorted_app_r P), Hs. }
  split; [rewrite Hlen, Hlen2; reflexivity|].
  split; [exact HinR|]. split; [exact Hout|]. split.
  { intros c c' Hc Hc' V V' Hn Hr Hle.
    pose proof (Hout c (lbl c') Hc Hn Hr) as Hlt.
    pose proof (WeekOrder.week_label_mono (c_date c') (c_date c) V' V Hle) as Hng.
    unfold StrOrder.lt in Hlt. unfold lbl in Hlt.
    rewrite String.compare_antisym, Hlt in Hng. apply Hng. reflexivity. }
  split.
  { rewrite (notes_count cs _ R _ F). apply count_in_weeks.
    rewrite HP in Hnd. apply NoDup_app_remove_l in Hnd. exact Hnd. }
  intros ->. inversion F; try reflexivity; discriminate.
Qed.

(** C6 (counterexample). Two commits of the same ISO week 2024-W01, on
    Saturday 6 and Sunday 7 January 2024, land in two movements, "Week of
    2024-W00" and "Week of 2024-W01": the grouping is not by ISO week. *)
Lemma iso_week_split_into_two_movements :
  let c1 := mkCommit "a1" "ann" "ann@example.org" (mkDT 2024 1 6 10 0 0 0 (Some 0))
              "add parser" "2024-01-06" 10 "Saturday" in
  let c2 := mkCommit "b2" "ann" "ann@example.org" (mkDT 2024 1 7 10 0 0 0 (Some 0))
              "fix parser" "2024-01-07" 10 "Sunday" in
  IsoWeek.iso_week_label (c_date c1) = "2024-W01" /\
  IsoWeek.iso_week_label (c_date c2) = "2024-W01" /\
  match create_musical_representation [c1; c2] empty_stats with
  | Some sc => map name (movements sc) = ["Week of 2024-W00"; "Week of 2024-W01"]
  | None => False
  end.
Proof. vm_compute. split; [reflexivity|split; reflexivity]. Qed.

End MusicClaims.

(** ** Authors and instruments *)

Module InstrumentFacts.
Import Py Time Stats Music Enumeration.

Lemma first_appearances_snoc (l : list string) (a : string) :
  first_appearances (l ++ [a]) =
  if in_dec string_dec a (first_appearances l) then first_appearances l
  else (first_appearances l ++ [a])%list.
Proof. unfold first_appearances. rewrite fold_left_app. reflexivity. Qed.

Lemma first_appearances_inv (l : list string) :
  NoDup (first_appearances l) /\ (forall a, In a (first_appearances l) <-> In a l).
Proof.
  induction l as [|a l IH] using rev_ind; [split; [constructor|simpl; tauto]|].
  destruct IH as [Hnd Hin]. rewrite first_appearances_snoc.
  destruct (in_dec string_dec a (first_appearances l)) as [Ha|Ha].
  - split; [exact Hnd|]. intros b. rewrite Hin, in_app_iff. simpl.
    split; [tauto|]. intros [H|[<-|[]]]; [exact H|apply Hin, Ha].
  - split.
    + apply NoDup_app; [exact Hnd|constructor; [intros []|constructor]|].
      intros x Hx [<-|[]]. contradiction.
    + intros b. rewrite !in_app_iff, Hin. tauto.
Qed.

Lemma count_commit_authors c st : authors (count_commit c st) = sincr (c_author c) (authors st).
Proof. unfold count_commit. destruct (Classify.stats_branch (c_message c)). reflexivity. Qed.

Lemma aggregate_authors fromiso diff raw :
  Dict.keys (authors (snd (aggregate fromiso diff raw))) =
  first_appearances (map c_author (fst (aggregate fromiso diff raw))).
Proof.
  unfold aggregate.
  assert (G : forall lines acc,
            Dict.keys (authors (snd acc)) = first_appearances (map c_author (fst acc)) ->
            Dict.keys (authors (snd (fold_left (step fromiso diff) lines acc))) =
            first_appearances (map c_author (fst (fold_left (step fromiso diff) lines acc)))).
  { induction lines as [|l ls IH]; intros [cs st] H; simpl; [exact H|].
    apply IH. unfold step. destruct (parse_line fromiso l) as [c|]; [|exact H]. cbn [fst snd].
    destruct (StatsFacts.record_files_frame (diff (c_hash c)) (count_commit c st)) as (_ & -> & _).
    rewrite count_commit_authors. unfold sincr. rewrite DictFacts.keys_incr.
    rewrite map_app. cbn [map]. rewrite first_appearances_snoc. cbn [fst snd] in H. rewrite H. reflexivity. }
  apply G. reflexivity.
Qed.

Lemma get_set_eq {V} (k : string) (v : V) (d : Dict.t string V) :
  Dict.get string_dec k (Dict.set string_dec k v d) = Some v.
Proof.
  induction d as [|[k' v'] d IH]; simpl.
  - destruct (string_dec k k); [reflexivity|contradiction].
  - destruct (string_dec k k') as [->|Hne]; simpl.
    + destruct (string_dec k' k'); [reflexivity|contradiction].
    + destruct (string_dec k k'); [contradiction|exact IH].
Qed.

Lemma get_set_neq {V} (a k : string) (v : V) (d : Dict.t string V) :
  a <> k -> Dict.get string_dec a (Dict.set string_dec k v d) = Dict.get string_dec a d.
Proof.
  intros Hne. induction d as [|[k' v'] d IH]; simpl.
  - destruct (string_dec a k); [contradiction|reflexivity].
  - destruct (string_dec k k') as [->|Hk]; simpl.
    + destruct (string_dec a k'); [contradiction|reflexivity].
    + destruct (string_dec a k'); [reflexivity|exact IH].
Qed.

Definition assign (d : Dict.t string string) (p : nat * string) : Dict.t string string :=
  let '(i, author) := p in
  Dict.set string_dec author (nth (Nat.modulo i (List.length instruments)) instruments "") d.

Lemma get_fold_notin (a : string) (j : nat) (l : list string) (d : Dict.t string string) :
  ~ In a l -> Dict.get string_dec a (fold_left assign (enumerate_from j l) d) = Dict.get string_dec a d.
Proof.
  revert j d; induction l as [|x l IH]; intros j d Hn; simpl; [reflexivity|].
  rewrite IH by (intros H; apply Hn; right; exact H). apply get_set_neq. intros ->. apply Hn. left; reflexivity.
Qed.

Lemma get_fold_index (a : string) (i j : nat) (l : list string) (d : Dict.t string string) :
  NoDup l -> nth_error l i = Some a ->
  Dict.get string_dec a (fold_left assign (enumerate_from j l) d) =
  Some (nth (Nat.modulo (j + i) 5) instruments "").
Proof.
  revert i j d; induction l as [|x l IH]; intros i j d Hnd Hi; [destruct i; discriminate|].
  apply NoDup_cons_iff in Hnd as [Hx Hnd]. simpl.
  destruct i as [|i]; simpl in Hi.
  - injection Hi as ->. rewrite get_fold_notin by exact Hx. rewrite get_set_eq.
    rewrite Nat.add_0_r. reflexivity.
  - rewrite (IH i (S j) _ Hnd Hi). replace (j + S i)%nat with (S j + i)%nat by lia. reflexivity.
Qed.

Lemma author_instruments_index (st : stats) (i : nat) (a : string) :
  NoDup (Dict.keys (authors st)) -> nth_error (Dict.keys (authors st)) i = Some a ->
  Dict.get string_dec a (author_instruments st) = Some (nth (Nat.modulo i 5) instruments "").
Proof.
  intros Hnd Hi. unfold author_instruments.
  change (fun d '(i, author) => Dict.set string_dec author
            (nth (Nat.modulo i (List.length instruments)) instruments "") d) with assign.
  apply (get_fold_index a i 0 _ [] Hnd Hi).
Qed.

Lemma make_note_instrument ai c n :
  make_note ai c = Some n ->
  instrument n = match Dict.get string_dec (c_author c) ai with Some i => i | None => "piano" end.
Proof.
  unfold make_note. destruct (Dict.get string_dec _ note_map); [|discriminate].
  intros H. injection H as <-. reflexivity.
Qed.

End InstrumentFacts.

Module NoteFacts.
Import Py Time Stats Music.

Lemma forall2_in_r {A B} (P : A -> B -> Prop) (l : list A) (ys : list B) (y : B) :
  Forall2 P l ys -> In y ys -> exists x, In x l /\ P x y.
Proof.
  induction 1 as [|x y' l ys Hxy Hr IH]; [intros []|].
  intros [<-|Hy]; [exists x; split; [left; reflexivity|exact Hxy]|].
  destruct (IH Hy) as [x' [Hx' Hp]]. exists x'. split; [right; exact Hx'|exact Hp].
Qed.

Definition time_in_range (h : Z) : bool :=
  (0 <=? PyFloat.of_int h / 24.0)%float && (PyFloat.of_int h / 24.0 <=? 23.0 / 24.0)%float.

Lemma time_in_range_all : WeekFacts.all_in_range time_in_range 0 24 = true.
Proof. vm_compute. reflexivity. Qed.

Lemma hour_time_range (h : Z) : 0 <= h <= 23 ->
  (0 <=? PyFloat.of_int h / 24.0)%float = true /\ (PyFloat.of_int h / 24.0 <=? 23.0 / 24.0)%float = true.
Proof.
  intros H. pose proof (WeekFacts.all_in_range_spec _ _ _ time_in_range_all h ltac:(simpl; lia)) as E.
  apply andb_true_iff in E. exact E.
Qed.

Lemma music_type_spec (msg : string) : Classify.music_commit_type msg = Classify.spec_classify msg.
Proof. rewrite ClassifyFacts.music_commit_type_spec, ClassifyFacts.stats_branch_spec. reflexivity. Qed.

Lemma analyze_aggregate fromiso diff today raw cs st :
  analyze_git_history fromiso diff today raw = Some (cs, st) ->
  exists st0, aggregate fromiso diff raw = (cs, st0) /\ authors st = authors st0.
Proof.
  unfold analyze_git_history. destruct (aggregate fromiso diff raw) as [cs0 st0].
  unfold finalize. destruct (score_days fromiso today (commits_by_day st0) (productivity_score st0)); [|discriminate].
  intros H. injection H as <- <-. exists st0. split; reflexivity.
Qed.

End NoteFacts.

(** ** Claims on the notes *)

Module NoteClaims.
Import Py Time Stats Music MusicFacts MovementFacts NoteFacts Enumeration InstrumentFacts.

(** C7. The score always comes out, and each of its notes is the note of a
    commit of the input. The note of a commit has the pitch of the fixed
    table (release C5, feature A4, fix F4, merge D4, test G4, other C4) at
    the commit's classification. Its duration is the int 1 (value 1.0) for a
    release and 0.5 otherwise. Its velocity is 100 for a release and 80
    otherwise. Its time is the hour divided by 24.0, which lies between 0
    and 23/24 for an hour of 0 to 23. *)
Theorem note_fields (cs : list commit) (st : stats) :
  exists sc, create_musical_representation cs st = Some sc /\
  (forall m n, In m (movements sc) -> In n (notes m) ->
     exists c, In c cs /\ make_note (author_instruments st) c = Some n) /\
  (forall ai c n, make_note ai c = Some n ->
     let t := Classify.spec_classify (c_message c) in
     In (t, pitch n) [("release", "C5"); ("feature", "A4"); ("fix", "F4");
                      ("merge", "D4"); ("test", "G4"); ("other", "C4")] /\
     duration n = (if String.eqb t "release" then NInt 1 else NFloat 0.5%float) /\
     num_value (duration n) = (if String.eqb t "release" then 1.0 else 0.5)%float /\
     velocity n = (if String.eqb t "release" then 100 else 80) /\
     time n = (PyFloat.of_int (c_hour c) / 24.0)%float /\
     (0 <= c_hour c <= 23 ->
        (0 <=? time n)%float = true /\ (time n <=? 23.0 / 24.0)%float = true)).
Proof.
  destruct (movements_exist cs st) as [sc [E F]].
  exists sc. split; [exact E|split].
  - intros m n Hm Hn.
    destruct (forall2_in_r _ _ _ _ F Hm) as [[w l] [Hwl (_ & Hl & Hf)]].
    destruct (forall2_in_r _ _ _ _ Hf Hn) as [c [Hc Hcn]].
    exists c. split; [|exact Hcn]. simpl in Hl, Hc. rewrite Hl in Hc.
    apply filter_In in Hc as [Hc _]. exact Hc.
  - intros ai c n Hn. cbv zeta.
    pose proof (music_type_in (c_message c)) as Hi.
    unfold make_note in Hn. rewrite music_type_spec in Hn, Hi.
    destruct Hi as [Ht|[Ht|[Ht|[Ht|[Ht|[Ht|[]]]]]]]; rewrite <- Ht in Hn |- *;
      cbn in Hn; injection Hn as <-; cbn [pitch duration velocity time num_value];
      (split; [simpl; tauto|]); (split; [reflexivity|]); (split; [vm_compute; reflexivity|]);
      (split; [reflexivity|]); (split; [reflexivity|]); apply hour_time_range.
Qed.

(** C8. For a run of [analyze_git_history] that returns, the authors are
    enumerated in the order of their first appearance in the commit
    stream, and every commit's author is among them. The note of a commit
    whose author sits at index i of that enumeration is played on
    [piano; violin; cello; flute; guitar] at i mod 5, so two commits of one
    author get the same instrument. *)
Theorem instrument_by_first_appearance fromiso diff today raw cs st
  (H : analyze_git_history fromiso diff today raw = Some (cs, st)) :
  Dict.keys (authors st) = first_appearances (map c_author cs) /\
  (forall c, In c cs -> In (c_author c) (Dict.keys (authors st))) /\
  (forall i c n, nth_error (Dict.keys (authors st)) i = Some (c_author c) ->
     make_note (author_instruments st) c = Some n ->
     instrument n = nth (Nat.modulo i 5) instruments "") /\
  (forall c1 c2 n1 n2, c_author c1 = c_author c2 ->
     make_note (author_instruments st) c1 = Some n1 ->
     make_note (author_instruments st) c2 = Some n2 -> instrument n1 = instrument n2).
Proof.
  destruct (analyze_aggregate _ _ _ _ _ _ H) as [st0 [E Ha]].
  assert (Hk : Dict.keys (authors st) = first_appearances (map c_author cs)).
  { rewrite Ha. pose proof (aggregate_authors fromiso diff raw) as G. rewrite E in G. exact G. }
  pose proof (first_appearances_inv (map c_author cs)) as [Hnd Hin].
  split; [exact Hk|split; [|split]].
  - intros c Hc. rewrite Hk. apply Hin, in_map, Hc.
  - intros i c n Hi Hn. rewrite (make_note_instrument _ _ _ Hn).
    rewrite (author_instruments_index st i (c_author c)); [reflexivity| |exact Hi].
    rewrite Hk. exact Hnd.
  - intros c1 c2 n1 n2 Ha12 H1 H2.
    rewrite (make_note_instrument _ _ _ H1), (make_note_instrument _ _ _ H2), Ha12. reflexivity.
Qed.

(** Witness of C8: the two-commit sample log. *)
Lemma instrument_by_first_appearance_witness :
  exists cs st,
    analyze_git_history Samples.fromisoformat Samples.diff_tree Samples.today Samples.log = Some (cs, st) /\
    Dict.keys (authors st) = first_appearances (map c_author cs) /\
    Dict.keys (authors st) = ["ann"; "bob"].
Proof.
  do 2 eexists.
  assert (E : analyze_git_history Samples.fromisoformat Samples.diff_tree Samples.today Samples.log
              = Some (_, _)) by (vm_compute; reflexivity).
  split; [exact E|].
  split; [apply (instrument_by_first_appearance _ _ _ _ _ _ E)|reflexivity].
Defined.

(** C10. The classification inlined in the musical encoder is the one of
    the statistics loop: on every message the encoder's [commit_type] is the
    key whose [commit_types] counter the loop increments for that commit,
    and that key fixes the note's pitch, duration and velocity. *)
Theorem classification_agrees :
  (forall msg, Classify.music_commit_type msg = fst (Classify.stats_branch msg)) /\
  (forall c st out,
     commit_types (record_files out (count_commit c st)) =
     sincr (Classify.music_commit_type (c_message c)) (commit_types st)) /\
  (forall ai c n, make_note ai c = Some n ->
     let k := fst (Classify.stats_branch (c_message c)) in
     Dict.get string_dec k note_map = Some (pitch n) /\
     duration n = (if String.eqb k "release" then NInt 1 else NFloat 0.5%float) /\
     velocity n = (if String.eqb k "release" then 100 else 80)).
Proof.
  split; [exact ClassifyFacts.music_commit_type_spec|split].
  - intros c st out.
    destruct (StatsFacts.record_files_frame out (count_commit c st)) as (_ & _ & _ & _ & -> & _).
    rewrite ClassifyFacts.music_commit_type_spec. unfold count_commit.
    destruct (Classify.stats_branch (c_message c)). reflexivity.
  - intros ai c n Hn. cbv zeta. unfold make_note in Hn.
    rewrite ClassifyFacts.music_commit_type_spec in Hn.
    destruct (Dict.get string_dec (fst (Classify.stats_branch (c_message c))) note_map); [|discriminate].
    injection Hn as <-. split; [reflexivity|split; reflexivity].
Qed.

End NoteClaims.

(** ** The productivity weight *)

Module WeightFacts.
Import Stats.

Lemma of_int_uint63 (n : Z) : 0 <= n < 9223372036854775808 ->
  PyFloat.of_int n = PrimFloat.of_uint63 (Uint63.of_Z n).
Proof.
  intros H. unfold PyFloat.of_int.
  assert (E : Uint63.to_Z (Uint63.of_Z n) = n).
  { rewrite Uint63.of_Z_spec. apply Z.mod_small. exact H. }
  rewrite <- (FloatAxioms.SF2Prim_Prim2SF (PrimFloat.of_uint63 (Uint63.of_Z n))),
    FloatAxioms.of_uint63_spec, E.
  reflexivity.
Qed.

(** [weight], with the int-to-float conversions of non-negative ages done by
    the primitive conversion. *)
Definition weight_fast (a : Z) : option float :=
  if a <? 0 then weight a
  else PyFloat.truediv 1.0%float
         (PrimFloat.of_uint63 1 + PrimFloat.of_uint63 (Uint63.of_Z a) / PrimFloat.of_uint63 30)%float.

Lemma weight_fast_eq (a : Z) : a < 9223372036854775808 -> weight_fast a = weight a.
Proof.
  intros H. unfold weight_fast. destruct (Z.ltb_spec a 0); [reflexivity|].
  unfold weight, PyFloat.int_truediv. simpl.
  rewrite (of_int_uint63 a), (of_int_uint63 30), (of_int_uint63 1) by lia. reflexivity.
Qed.

Lemma sfltb_finite_pos m1 e1 m2 e2 :
  SpecFloat.SFltb (SpecFloat.S754_finite false m1 e1) (SpecFloat.S754_finite false m2 e2) = true <->
  (e1 < e2 \/ (e1 = e2 /\ (m1 < m2)%positive)).
Proof.
  unfold SpecFloat.SFltb, SpecFloat.SFcompare.
  change (Pos.compare_cont Eq m1 m2) with (Pos.compare m1 m2).
  destruct (Z.compare_spec e1 e2) as [->|Hl|Hg].
  - destruct (Pos.compare_spec m1 m2); split; intros; try discriminate; try reflexivity; lia.
  - split; [intros _; left; exact Hl|reflexivity].
  - split; [discriminate|lia].
Qed.

Lemma sfltb_finite_neg m1 e1 m2 e2 :
  SpecFloat.SFltb (SpecFloat.S754_finite true m1 e1) (SpecFloat.S754_finite true m2 e2) = true <->
  (e2 < e1 \/ (e1 = e2 /\ (m2 < m1)%positive)).
Proof.
  unfold SpecFloat.SFltb, SpecFloat.SFcompare.
  change (Pos.compare_cont Eq m1 m2) with (Pos.compare m1 m2).
  destruct (Z.compare_spec e1 e2) as [->|Hl|Hg].
  - destruct (Pos.compare_spec m1 m2); simpl; split; intros; try discriminate; try reflexivity; lia.
  - split; [discriminate|lia].
  - split; [intros _; left; exact Hg|reflexivity].
Qed.

Lemma sfltb_trans (a b c : SpecFloat.spec_float) :
  SpecFloat.SFltb a b = true -> SpecFloat.SFltb b c = true -> SpecFloat.SFltb a c = true.
Proof.
  destruct a as [sa|sa| |sa ma ea]; destruct b as [sb|sb| |sb mb eb];
    destruct c as [sc|sc| |sc mc ec];
    try destruct sa; try destruct sb; try destruct sc;
    try (intros H1 H2; exact H1); try (intros H1 H2; exact H2);
    try (intros H1 H2; reflexivity); try (intros H1 H2; discriminate);
    try (rewrite !sfltb_finite_pos; lia); try (rewrite !sfltb_finite_neg; lia).
Qed.

Lemma ltb_trans (x y z : float) : (x <? y)%float = true -> (y <? z)%float = true -> (x <? z)%float = true.
Proof. rewrite !FloatAxioms.ltb_spec. apply sfltb_trans. Qed.

(** The weights of consecutive ages, compared one step at a time. *)
Fixpoint chain (fuel : nat) (a : Z) (wa : float) : bool :=
  match fuel with
  | O => true
  | S f =>
      match weight_fast (a + 1) with
      | Some wb => PrimFloat.ltb wb wa && chain f (a + 1) wb
      | None => false
      end
  end.

Lemma chain_all : match weight (-29) with
                  | Some w => chain (Z.to_nat 3652087) (-29) w = true
                  | None => False
                  end.
Proof. vm_compute. reflexivity. Qed.

Lemma chain_spec (n : nat) (a : Z) (wa : float) :
  a + Z.of_nat n < 9223372036854775808 -> weight a = Some wa -> chain n a wa = true ->
  forall x, a <= x < a + Z.of_nat n ->
  exists wx wy, weight x = Some wx /\ weight (x + 1) = Some wy /\ (wy <? wx)%float = true.
Proof.
  revert a wa; induction n as [|n IH]; intros a wa Hb Ha Hc x Hx; [lia|].
  simpl in Hc. rewrite weight_fast_eq in Hc by lia.
  destruct (weight (a + 1)) as [wb|] eqn:Eb; [|discriminate].
  apply andb_true_iff in Hc as [Hlt Hc].
  destruct (Z.eq_dec x a) as [->|Hne].
  - exists wa, wb. split; [exact Ha|split; [exact Eb|exact Hlt]].
  - apply (IH (a + 1) wb); [lia|exact Eb|exact Hc|lia].
Qed.

Lemma weight_steps (x : Z) : -29 <= x < 3652058 ->
  exists wx wy, weight x = Some wx /\ weight (x + 1) = Some wy /\ (wy <? wx)%float = true.
Proof.
  intros Hx. pose proof chain_all as C. destruct (weight (-29)) as [w|] eqn:E; [|contradiction].
  assert (B : -29 + Z.of_nat (Z.to_nat 3652087) < 9223372036854775808) by (rewrite Z2Nat.id by lia; lia).
  apply (chain_spec _ _ _ B E C). rewrite Z2Nat.id by lia. lia.
Qed.

Lemma weight_decreasing (x y : Z) : -29 <= x -> x < y -> y <= 3652058 ->
  exists wx wy, weight x = Some wx /\ weight y = Some wy /\ (wy <? wx)%float = true.
Proof.
  intros Hx Hxy Hy.
  replace y with (x + Z.of_nat (Z.to_nat (y - x - 1)) + 1) by lia.
  assert (Hd : x + Z.of_nat (Z.to_nat (y - x - 1)) + 1 <= 3652058) by lia.
  clear Hxy Hy. induction (Z.to_nat (y - x - 1)) as [|d IH].
  - simpl. rewrite Z.add_0_r. apply weight_steps. lia.
  - destruct IH as [wx [wy [E1 [E2 L1]]]]; [lia|].
    destruct (weight_steps (x + Z.of_nat d + 1)) as [wy' [wz [E3 [E4 L2]]]]; [lia|].
    rewrite E2 in E3. injection E3 as <-.
    exists wx, wz. split; [exact E1|split; [|exact (ltb_trans _ _ _ L2 L1)]].
    replace (x + Z.of_nat (S d) + 1) with (x + Z.of_nat d + 1 + 1) by lia. exact E4.
Qed.

End WeightFacts.

Module ScoreFacts.
Import Py Time Stats InstrumentFacts.

Lemma score_days_frame fromiso today days ps ps' k :
  score_days fromiso today days ps = Some ps' -> ~ In k (Dict.keys days) ->
  Dict.get string_dec k ps' = Dict.get string_dec k ps.
Proof.
  revert ps; induction days as [|[d c] days IH]; intros ps; simpl.
  - intros H _. injection H as <-. reflexivity.
  - destruct (fromiso d) as [dd|]; [|discriminate].
    destruct (sub_days today dd) as [age|]; [|discriminate].
    destruct (weight age) as [w|]; [|discriminate].
    intros H Hn. rewrite (IH _ H) by tauto. apply get_set_neq. intros ->. tauto.
Qed.

Lemma score_days_spec fromiso today days ps ps' :
  score_days fromiso today days ps = Some ps' -> NoDup (Dict.keys days) ->
  forall d c, In (d, c) days ->
  exists dd age w, fromiso d = Some dd /\ sub_days today dd = Some age /\ weight age = Some w /\
    Dict.get string_dec d ps' = Some (PyFloat.of_int c * w)%float.
Proof.
  revert ps; induction days as [|[d0 c0] days IH]; intros ps; simpl; [intros _ _ d c []|].
  destruct (fromiso d0) as [dd|] eqn:E1; [|discriminate].
  destruct (sub_days today dd) as [age|] eqn:E2; [|discriminate].
  destruct (weight age) as [w|] eqn:E3; [|discriminate].
  intros H Hnd d c Hin. apply NoDup_cons_iff in Hnd as [Hn Hnd].
  destruct Hin as [Hh|Hin].
  - injection Hh as <- <-. exists dd, age, w. split; [exact E1|split; [exact E2|split; [exact E3|]]].
    rewrite (score_days_frame _ _ _ _ _ _ H Hn). apply get_set_eq.
  - exact (IH _ H Hnd d c Hin).
Qed.

Lemma count_commit_days c st : commits_by_day (count_commit c st) = sincr (c_day c) (commits_by_day st).
Proof. unfold count_commit. destruct (Classify.stats_branch (c_message c)). reflexivity. Qed.

Lemma incr_nodup (k : string) (d : Dict.t string Z) :
  NoDup (Dict.keys d) -> NoDup (Dict.keys (Dict.incr string_dec k d)).
Proof. intros H. unfold Dict.incr. destruct (Dict.get string_dec k d); apply DictSetFacts.nodup_set, H. Qed.

Lemma aggregate_days_nodup fromiso diff raw :
  NoDup (Dict.keys (commits_by_day (snd (aggregate fromiso diff raw)))).
Proof.
  unfold aggregate.
  assert (G : forall lines acc, NoDup (Dict.keys (commits_by_day (snd acc))) ->
            NoDup (Dict.keys (commits_by_day (snd (fold_left (step fromiso diff) lines acc))))).
  { induction lines as [|l ls IH]; intros [cs st] H; simpl; [exact H|].
    apply IH. unfold step. destruct (parse_line fromiso l) as [c|]; [|exact H]. cbn [snd].
    destruct (StatsFacts.record_files_frame (diff (c_hash c)) (count_commit c st)) as (_ & _ & -> & _).
    rewrite count_commit_days. apply incr_nodup, H. }
  apply G. constructor.
Qed.

Lemma analyze_finalize fromiso diff today raw cs st :
  analyze_git_history fromiso diff today raw = Some (cs, st) ->
  exists st0, aggregate fromiso diff raw = (cs, st0) /\ commits_by_day st = commits_by_day st0 /\
  score_days fromiso today (commits_by_day st0) (productivity_score st0) = Some (productivity_score st).
Proof.
  unfold analyze_git_history. destruct (aggregate fromiso diff raw) as [cs0 st0].
  unfold finalize. destruct (score_days fromiso today (commits_by_day st0) (productivity_score st0)) eqn:E;
    [|discriminate].
  intros H. injection H as <- <-. exists st0. split; [reflexivity|split; [reflexivity|exact E]].
Qed.

End ScoreFacts.

(** ** Claims on the productivity score *)

Module ScoreClaims.
Import Py Time Stats ScoreFacts.

(** C5 (amended). For a run of [analyze_git_history] that returns, every
    (day, count) of [commits_by_day] has [productivity_score[day]] equal to
    [float(count) * w], where [w = 1.0 / (1 + age_days / 30)] is computed
    in floating point from [age_days = (today - datetime.fromisoformat(day)).days].
    The weight is exactly 1.0 at age 0, exists for every age from -29 to
    3652058 (the widest span of two [datetime]s), and strictly decreases
    as the age grows over that range. *)
Theorem productivity_score_weights fromiso diff today raw cs st
  (H : analyze_git_history fromiso diff today raw = Some (cs, st)) :
  (forall day count, In (day, count) (commits_by_day st) ->
     exists dd age w, fromiso day = Some dd /\ sub_days today dd = Some age /\
       weight age = Some w /\
       Dict.get string_dec day (productivity_score st) = Some (PyFloat.of_int count * w)%float) /\
  weight 0 = Some 1.0%float /\
  (forall a, -30 < a <= 3652058 -> exists w, weight a = Some w) /\
  (forall a b wa wb, -30 < a -> a < b -> b <= 3652058 ->
     weight a = Some wa -> weight b = Some wb -> (wb <? wa)%float = true).
Proof.
  destruct (analyze_finalize _ _ _ _ _ _ H) as [st0 [E [Hd Hs]]].
  pose proof (aggregate_days_nodup fromiso diff raw) as Hnd. rewrite E in Hnd. cbn [snd] in Hnd.
  split; [|split; [vm_compute; reflexivity|split]].
  - intros day count Hin. rewrite Hd in Hin. exact (score_days_spec _ _ _ _ _ Hs Hnd day count Hin).
  - intros a Ha. destruct (Z.eq_dec a 3652058) as [->|Hne].
    + destruct (WeightFacts.weight_decreasing 0 3652058) as [_ [w [_ [Ew _]]]]; try lia. exists w; exact Ew.
    + destruct (WeightFacts.weight_decreasing a 3652058) as [w [_ [Ew _]]]; try lia. exists w; exact Ew.
  - intros a b wa wb Ha Hab Hb Ea Eb.
    destruct (WeightFacts.weight_decreasing a b) as [wa' [wb' [Ea' [Eb' L]]]]; try lia.
    rewrite Ea in Ea'. rewrite Eb in Eb'. injection Ea' as <-. injection Eb' as <-. exact L.
Qed.

(** Witness of C5: the sample log, whose day 2024-01-06 scores
    [float(1) * weight(1017)] on 2026-10-19. *)
Lemma productivity_score_weights_witness :
  exists cs st,
    analyze_git_history Samples.fromisoformat Samples.diff_tree Samples.today Samples.log = Some (cs, st) /\
    exists dd age w, Samples.fromisoformat "2024-01-06" = Some dd /\
      sub_days Samples.today dd = Some age /\ weight age = Some w /\
      Dict.get string_dec "2024-01-06" (productivity_score st) = Some (PyFloat.of_int 1 * w)%float.
Proof.
  do 2 eexists.
  assert (E : analyze_git_history Samples.fromisoformat Samples.diff_tree Samples.today Samples.log
              = Some (_, _)) by (vm_compute; reflexivity).
  split; [exact E|].
  destruct (productivity_score_weights _ _ _ _ _ _ E) as [Hd _].
  apply Hd. vm_compute. left. reflexivity.
Defined.

(** C5 (counterexample). The weight is not decreasing over every age: a
    day 30 days ahead of [today] raises ZeroDivisionError, and ages -31 and
    -29 weigh about -30.0 and 30.0. *)
Lemma weight_not_decreasing_everywhere :
  weight (-30) = None /\
  ~ (forall a b wa wb, a < b -> weight a = Some wa -> weight b = Some wb -> (wb <? wa)%float = true).
Proof.
  split; [vm_compute; reflexivity|].
  intros H.
  destruct (weight (-31)) as [wa|] eqn:Ea; [|vm_compute in Ea; discriminate].
  destruct (weight (-29)) as [wb|] eqn:Eb; [|vm_compute in Eb; discriminate].
  specialize (H (-31) (-29) wa wb ltac:(lia) Ea Eb).
  vm_compute in Ea, Eb. injection Ea as <-. injection Eb as <-. vm_compute in H. discriminate.
Qed.

End ScoreClaims.

(** ** Claims on the report *)

Module ReportClaims.
Import Py Time Stats Report.

(** C2 (amended). On an accumulator whose mappings are all empty, whatever
    its total and its scores, the renderer raises no error. Its lines hold
    neither the brightest-day nor the hottest-file fun fact. They do hold
    the recent-activity fun fact, with an average of 0.0. *)
Theorem empty_report (st : stats)
  (H : authors st = [] /\ commits_by_day st = [] /\ commits_by_hour st = [] /\
       commit_types st = [] /\ file_changes st = [] /\ languages st = [] /\
       release_history st = []) :
  generate_summary_report st <> None /\
  match report_lines st with
  | None => False
  | Some ls =>
      existsb (has_prefix brightest_prefix) ls = false /\
      existsb (has_prefix hottest_prefix) ls = false /\
      In (recent_prefix ++ cps "0.0 commits/day (last 30 days)")%list ls
  end.
Proof.
  destruct st as [t a d h ct fc lg rh ps]; cbn [authors commits_by_day commits_by_hour
    commit_types file_changes languages release_history] in H.
  destruct H as (-> & -> & -> & -> & -> & -> & ->).
  split.
  - vm_compute. intros E. discriminate E.
  - vm_compute. split; [reflexivity|split; [reflexivity|]].
    repeat (first [left; reflexivity|right]).
Qed.

(** Witness of C2: the accumulator the aggregation starts from. *)
Lemma empty_report_witness :
  (authors empty_stats = [] /\ commits_by_day empty_stats = [] /\ commits_by_hour empty_stats = [] /\
   commit_types empty_stats = [] /\ file_changes empty_stats = [] /\ languages empty_stats = [] /\
   release_history empty_stats = []) /\
  generate_summary_report empty_stats <> None.
Proof.
  assert (H : authors empty_stats = [] /\ commits_by_day empty_stats = [] /\
              commits_by_hour empty_stats = [] /\ commit_types empty_stats = [] /\
              file_changes empty_stats = [] /\ languages empty_stats = [] /\
              release_history empty_stats = []) by (vm_compute; repeat split).
  split; [exact H|exact (proj1 (empty_report empty_stats H))].
Defined.

(** C2 (counterexample). The report of the empty accumulator still holds
    the recent-activity line, "Recent Activity: 0.0 commits/day". *)
Lemma empty_report_keeps_recent_activity :
  match report_lines empty_stats with
  | None => False
  | Some ls => existsb (has_prefix recent_prefix) ls = true
  end.
Proof. vm_compute. reflexivity. Qed.

End ReportClaims.

(* ------------------------------------------------------------------ *)
(** ** Further properties of the code *)

Module LoopFacts.
Import Py Time Stats.

Section Loop.
Variable fromiso : string -> option datetime.
Variable diff : string -> string.

Lemma fold_step_ind (P : list commit * stats -> Prop) lines acc :
  P acc ->
  (forall cs st c line, parse_line fromiso line = Some c -> P (cs, st) ->
     P ((cs ++ [c])%list, record_files (diff (c_hash c)) (count_commit c st))) ->
  P (fold_left (step fromiso diff) lines acc).
Proof.
  intros H0 HS. revert acc H0; induction lines as [|l ls IH]; intros [cs st] H0; simpl; [exact H0|].
  apply IH. unfold step. destruct (parse_line fromiso l) as [c|] eqn:E; [apply (HS _ _ _ l E), H0|exact H0].
Qed.

Lemma aggregate_ind (P : list commit * stats -> Prop) raw :
  P ([], empty_stats) ->
  (forall cs st c line, parse_line fromiso line = Some c -> P (cs, st) ->
     P ((cs ++ [c])%list, record_files (diff (c_hash c)) (count_commit c st))) ->
  P (aggregate fromiso diff raw).
Proof. intros H0 HS. unfold aggregate. apply fold_step_ind; assumption. Qed.

End Loop.

Definition nfilter {A} (p : A -> bool) (l : list A) : Z := Z.of_nat (List.length (filter p l)).

Lemma nfilter_snoc {A} (p : A -> bool) (l : list A) (x : A) :
  nfilter p (l ++ [x]) = nfilter p l + (if p x then 1 else 0).
Proof. unfold nfilter. rewrite filter_app, length_app. simpl. destruct (p x); simpl; lia. Qed.

Lemma count_commit_fields c st :
  let st' := count_commit c st in
  total_commits st' = total_commits st + 1 /\
  authors st' = sincr (c_author c) (authors st) /\
  commits_by_day st' = sincr (c_day c) (commits_by_day st) /\
  commits_by_hour st' = zincr (c_hour c) (commits_by_hour st) /\
  commit_types st' = sincr (Classify.spec_classify (c_message c)) (commit_types st) /\
  release_history st' =
    (if String.eqb (Classify.spec_classify (c_message c)) Classify.k_release
     then (release_history st ++ [(c_day c, c_message c)])%list else release_history st) /\
  file_changes st' = file_changes st /\ languages st' = languages st.
Proof.
  unfold count_commit. rewrite ClassifyFacts.stats_branch_spec. simpl. tauto.
Qed.

End LoopFacts.

Module AggregateExtras.
Import Py Time Stats LoopFacts.

(** X1. For the commits and counters that the [analyze_git_history] loop
    builds from any [git log] output, the total is the number of parsed
    commits. The authors, days and hours counters each sum to that total.
    Each key's count is the number of commits with that author, day or hour. *)
Theorem counters_count_commits fromiso diff raw :
  let '(cs, st) := aggregate fromiso diff raw in
  total_commits st = Z.of_nat (List.length cs) /\
  Dict.sum (Dict.values (authors st)) = total_commits st /\
  Dict.sum (Dict.values (commits_by_day st)) = total_commits st /\
  Dict.sum (Dict.values (commits_by_hour st)) = total_commits st /\
  (forall a, Dict.count string_dec a (authors st) = nfilter (fun c => String.eqb (c_author c) a) cs) /\
  (forall d, Dict.count string_dec d (commits_by_day st) = nfilter (fun c => String.eqb (c_day c) d) cs) /\
  (forall h, Dict.count Z.eq_dec h (commits_by_hour st) = nfilter (fun c => Z.eqb (c_hour c) h) cs).
Proof.
  apply aggregate_ind.
  - simpl. repeat split; reflexivity.
  - intros cs st c _ _ (H1 & H2 & H3 & H4 & H5 & H6 & H7).
    destruct (StatsFacts.record_files_frame (diff (c_hash c)) (count_commit c st))
      as (F1 & F2 & F3 & F4 & _).
    destruct (count_commit_fields c st) as (C1 & C2 & C3 & C4 & _).
    rewrite F1, F2, F3, F4, C1, C2, C3, C4. unfold sincr, zincr.
    rewrite !DictFacts.sum_values_incr, length_app. simpl.
    split; [lia|split; [lia|split; [lia|split; [lia|]]]].
    split; [|split]; intros k; rewrite DictFacts.count_incr, nfilter_snoc.
    + rewrite H5. destruct (string_dec k (c_author c)) as [->|Hne];
        [rewrite String.eqb_refl; reflexivity|].
      destruct (String.eqb_spec (c_author c) k); [congruence|lia].
    + rewrite H6. destruct (string_dec k (c_day c)) as [->|Hne];
        [rewrite String.eqb_refl; reflexivity|].
      destruct (String.eqb_spec (c_day c) k); [congruence|lia].
    + rewrite H7. destruct (Z.eq_dec k (c_hour c)) as [->|Hne]; [rewrite Z.eqb_refl; reflexivity|].
      destruct (Z.eqb_spec (c_hour c) k); [congruence|lia].
Qed.

Definition is_release (c : commit) : bool :=
  String.eqb (Classify.spec_classify (c_message c)) Classify.k_release.

(** X2. The release history is the list of (day, message) pairs of the
    commits classified as releases, in commit order. The "release" count of
    the commit types equals the length of that history. *)
Theorem release_history_of_commits fromiso diff raw :
  let '(cs, st) := aggregate fromiso diff raw in
  release_history st = map (fun c => (c_day c, c_message c)) (filter is_release cs) /\
  Dict.count string_dec Classify.k_release (commit_types st) = Z.of_nat (List.length (release_history st)).
Proof.
  apply aggregate_ind.
  - split; reflexivity.
  - intros cs st c _ _ [H1 H2].
    destruct (StatsFacts.record_files_frame (diff (c_hash c)) (count_commit c st))
      as (_ & _ & _ & _ & F5 & F6 & _).
    destruct (count_commit_fields c st) as (_ & _ & _ & _ & C5 & C6 & _).
    rewrite F5, F6, C5, C6. unfold sincr. rewrite DictFacts.count_incr, filter_app, map_app.
    cbn [filter]. unfold is_release at 2.
    destruct (String.eqb_spec (Classify.spec_classify (c_message c)) Classify.k_release) as [E|E].
    + destruct (string_dec Classify.k_release (Classify.spec_classify (c_message c))); [|congruence].
      cbn [map]. rewrite H1, length_app. split; [reflexivity|]. rewrite <- H1, H2.
      cbn [List.length]. lia.
    + destruct (string_dec Classify.k_release (Classify.spec_classify (c_message c))); [congruence|].
      cbn [map]. rewrite !app_nil_r. split; [exact H1|]. lia.
Qed.

Definition paths (out : string) : list string :=
  filter (fun f => negb (String.eqb f "")) (split newline out).

Lemma record_files_sums out s :
  Dict.sum (Dict.values (file_changes (record_files out s))) =
    Dict.sum (Dict.values (file_changes s)) + Z.of_nat (List.length (paths out)) /\
  Dict.sum (Dict.values (languages (record_files out s))) =
    Dict.sum (Dict.values (languages s)) + nfilter (contains ".") (paths out).
Proof.
  unfold record_files, paths, nfilter. revert s.
  induction (split newline out) as [|f fs IH]; intros s; simpl; [lia|].
  destruct (IH (record_file s f)) as [IH1 IH2]. rewrite IH1, IH2.
  unfold record_file. destruct (String.eqb f ""); simpl; [lia|].
  unfold sincr. rewrite DictFacts.sum_values_incr.
  destruct (contains "." f); simpl; rewrite ?DictFacts.sum_values_incr; lia.
Qed.

(** X3. The file-change counts sum to the number of non-empty paths over
    all the [git diff-tree] outputs of the parsed commits. The language
    counts sum to the number of those paths that contain a dot. *)
Theorem file_totals fromiso diff raw :
  let '(cs, st) := aggregate fromiso diff raw in
  let ps := flat_map (fun c => paths (diff (c_hash c))) cs in
  Dict.sum (Dict.values (file_changes st)) = Z.of_nat (List.length ps) /\
  Dict.sum (Dict.values (languages st)) = nfilter (contains ".") ps.
Proof.
  apply aggregate_ind.
  - split; reflexivity.
  - intros cs st c _ _ [H1 H2]. cbv zeta in *.
    rewrite flat_map_app. cbn [flat_map]. rewrite app_nil_r.
    destruct (count_commit_fields c st) as (_ & _ & _ & _ & _ & _ & C7 & C8).
    destruct (record_files_sums (diff (c_hash c)) (count_commit c st)) as [R1 R2].
    rewrite R1, R2, C7, C8, H1, H2. unfold nfilter. rewrite filter_app, !length_app. lia.
Qed.

End AggregateExtras.

Module ParseFacts.
Import Py Time Stats.

Lemma split_bar_app (x y : string) :
  contains "|" x = false -> split bar (x ++ String bar y) = x :: split bar y.
Proof.
  induction x as [|c x IH]; intros H; simpl; [reflexivity|].
  change "|" with (String bar EmptyString) in H. rewrite PyFacts.contains_char_cons in H.
  apply orb_false_iff in H as [H1 H2]. rewrite H1, (IH H2). reflexivity.
Qed.

Lemma parse_line_some fromiso line c :
  parse_line fromiso line = Some c ->
  exists s, fromiso s = Some (c_date c) /\ c_hour c = hour (c_date c) /\
    c_day c = strftime_ymd (c_date c) /\ c_weekday c = strftime_A (c_date c).
Proof.
  unfold parse_line. destruct (String.eqb line ""); [discriminate|].
  destruct (5 <=? List.length (split bar line))%nat; [|discriminate].
  destruct (fromiso _) as [dt|] eqn:E; [|discriminate].
  intros H. injection H as <-. eexists. simpl. split; [exact E|tauto].
Qed.

End ParseFacts.

Module ParseExtras.
Import Py Time Stats ParseFacts.

(** X4. A log line whose first five fields contain no '|' parses into the
    commit of those fields, as long as the date, with "Z" replaced by
    "+00:00", parses. The message is the fifth field alone; the body after
    it is dropped, whatever '|' it holds. The hour, day string and weekday
    name come from the parsed date. *)
Theorem parse_line_fields fromiso (h a e d m b : string) (dt : datetime)
  (Hf : Forall (fun s => contains "|" s = false) [h; a; e; d; m])
  (Hd : fromiso (replace_char "Z" "+00:00" d) = Some dt) :
  parse_line fromiso (h ++ "|" ++ a ++ "|" ++ e ++ "|" ++ d ++ "|" ++ m ++ "|" ++ b) =
  Some (mkCommit h a e dt m (strftime_ymd dt) (hour dt) (strftime_A dt)).
Proof.
  inversion Hf as [|? ? Hh Hf1]; inversion Hf1 as [|? ? Ha Hf2]; inversion Hf2 as [|? ? He Hf3];
    inversion Hf3 as [|? ? Hd' Hf4]; inversion Hf4 as [|? ? Hm _]; subst.
  unfold parse_line. cbn [append].
  rewrite (split_bar_app h), (split_bar_app a), (split_bar_app e), (split_bar_app d),
    (split_bar_app m) by assumption.
  replace (String.eqb (h ++ String bar _) "") with false by (destruct h; reflexivity).
  cbn [List.length nth]. rewrite Hd. reflexivity.
Qed.

(** Witness of X4: the first line of the sample log. *)
Lemma parse_line_fields_witness :
  Forall (fun s => contains "|" s = false)
    ["h1"; "ann"; "ann@example.org"; "2024-01-06T10:00:00Z"; "add parser"] /\
  parse_line Samples.fromisoformat
    ("h1" ++ "|" ++ "ann" ++ "|" ++ "ann@example.org" ++ "|" ++ "2024-01-06T10:00:00Z" ++ "|"
     ++ "add parser" ++ "|" ++ "body | with bars") =
  Some (mkCommit "h1" "ann" "ann@example.org" (mkDT 2024 1 6 10 0 0 0 (Some 0)) "add parser"
          (strftime_ymd (mkDT 2024 1 6 10 0 0 0 (Some 0))) 10
          (strftime_A (mkDT 2024 1 6 10 0 0 0 (Some 0)))).
Proof.
  assert (Hf : Forall (fun s => contains "|" s = false)
    ["h1"; "ann"; "ann@example.org"; "2024-01-06T10:00:00Z"; "add parser"])
    by (repeat constructor).
  split; [exact Hf|].
  exact (parse_line_fields Samples.fromisoformat _ _ _ _ _ _ _ Hf eq_refl).
Defined.

End ParseExtras.

Module AnalyzeFacts.
Import Py Time Stats LoopFacts ParseFacts.

Lemma days_in_month_le (y m : Z) : days_in_month y m <= 31.
Proof. unfold days_in_month. destruct (m =? 2); [destruct (is_leap y)|destruct (_ || _)]; lia. Qed.

Lemma ymd_length (dt : datetime) : valid dt -> String.length (strftime_ymd dt) = 10%nat.
Proof.
  intros (Hy & Hm & Hd & _). pose proof (days_in_month_le (year dt) (month dt)).
  unfold strftime_ymd.
  rewrite (proj1 (WeekFacts.year_fmt (year dt) ltac:(lia))),
    (proj1 (WeekFacts.week_fmt (month dt) ltac:(lia))),
    (proj1 (WeekFacts.week_fmt (day dt) ltac:(lia))).
  reflexivity.
Qed.

Lemma weekday_name (dt : datetime) :
  In (strftime_A dt) ["Monday"; "Tuesday"; "Wednesday"; "Thursday"; "Friday"; "Saturday"; "Sunday"].
Proof.
  unfold strftime_A, weekday. apply nth_In.
  pose proof (Z.mod_pos_bound (toordinal dt + 6) 7 ltac:(lia)). simpl. lia.
Qed.

Lemma stats_frame_keys st c out :
  Dict.keys (commits_by_hour (record_files out (count_commit c st))) =
    Dict.keys (zincr (c_hour c) (commits_by_hour st)) /\
  Dict.keys (commits_by_day (record_files out (count_commit c st))) =
    Dict.keys (sincr (c_day c) (commits_by_day st)).
Proof.
  destruct (StatsFacts.record_files_frame out (count_commit c st)) as (_ & _ & F3 & F4 & _).
  destruct (count_commit_fields c st) as (_ & _ & C3 & C4 & _).
  rewrite F3, F4, C3, C4. split; reflexivity.
Qed.

Lemma in_keys_incr {K} (dec : forall x y : K, {x = y} + {x <> y}) (k x : K) (d : Dict.t K Z) :
  In x (Dict.keys (Dict.incr dec k d)) -> In x (Dict.keys d) \/ x = k.
Proof.
  rewrite DictFacts.keys_incr. destruct (in_dec dec k (Dict.keys d)); [tauto|].
  intros H. apply in_app_or in H as [H|[H|[]]]; [left; exact H|right; congruence].
Qed.

Lemma productivity_score_aggregate fromiso diff raw :
  productivity_score (snd (aggregate fromiso diff raw)) = [].
Proof.
  apply (aggregate_ind fromiso diff (fun acc => productivity_score (snd acc) = [])); [reflexivity|].
  intros cs st c _ _ H. simpl in *.
  destruct (StatsFacts.record_files_frame (diff (c_hash c)) (count_commit c st)) as (_ & _ & _ & _ & _ & _ & F7).
  rewrite F7. unfold count_commit. destruct (Classify.stats_branch (c_message c)). exact H.
Qed.

Lemma score_days_keys fromiso today days ps ps' :
  score_days fromiso today days ps = Some ps' -> NoDup (Dict.keys days) ->
  (forall k, In k (Dict.keys days) -> ~ In k (Dict.keys ps)) ->
  Dict.keys ps' = (Dict.keys ps ++ Dict.keys days)%list.
Proof.
  revert ps; induction days as [|[d c] days IH]; intros ps; simpl.
  - intros H _ _. injection H as <-. rewrite app_nil_r. reflexivity.
  - destruct (fromiso d) as [dd|]; [|discriminate].
    destruct (sub_days today dd) as [age|]; [|discriminate].
    destruct (weight age) as [w|]; [|discriminate].
    intros H Hnd Hfresh. apply NoDup_cons_iff in Hnd as [Hn Hnd].
    rewrite (IH _ H Hnd).
    + rewrite DictSetFacts.keys_set.
      destruct (in_dec string_dec d (Dict.keys ps)) as [Hi|_];
        [exfalso; exact (Hfresh d (or_introl eq_refl) Hi)|].
      rewrite <- app_assoc. reflexivity.
    + intros k Hk. rewrite DictSetFacts.keys_set.
      destruct (in_dec string_dec d (Dict.keys ps)); [apply Hfresh; right; exact Hk|].
      intros Hin. apply in_app_or in Hin as [Hin|[<-|[]]]; [exact (Hfresh k (or_intror Hk) Hin)|].
      exact (Hn Hk).
Qed.

Definition day_fails (fromiso : string -> option datetime) (today : datetime) (day : string) : Prop :=
  match fromiso day with
  | None => True
  | Some dd => match sub_days today dd with None => True | Some age => weight age = None end
  end.

Lemma score_days_none fromiso today days ps :
  score_days fromiso today days ps = None <->
  exists day count, In (day, count) days /\ day_fails fromiso today day.
Proof.
  revert ps; induction days as [|[d c] days IH]; intros ps; simpl.
  - split; [discriminate|intros (? & ? & [] & _)].
  -
    destruct (fromiso d) as [dd|] eqn:E1;
      [|split; [intros _; exists d, c; split; [left; reflexivity|unfold day_fails; rewrite ?E1, ?E2; exact I]|reflexivity]].
    destruct (sub_days today dd) as [age|] eqn:E2;
      [|split; [intros _; exists d, c; split; [left; reflexivity|unfold day_fails; rewrite ?E1, ?E2; exact I]|reflexivity]].
    destruct (weight age) as [w|] eqn:Ew;
      [|split; [intros _; exists d, c; split; [left; reflexivity|unfold day_fails; rewrite E1, E2; exact Ew]|reflexivity]].
    rewrite IH. split.
    + intros (day & count & Hin & Hf). exists day, count. split; [right; exact Hin|exact Hf].
    + intros (day & count & [Heq|Hin] & Hf).
      * injection Heq as <- <-. unfold day_fails in Hf.
        rewrite E1, E2, Ew in Hf. discriminate.
      * exists day, count. split; [exact Hin|exact Hf].
Qed.

Lemma aggregate_commit_facts fromiso diff raw
  (Hv : forall s dt, fromiso s = Some dt -> valid dt) :
  let '(cs, st) := aggregate fromiso diff raw in
  (forall c, In c cs -> valid (c_date c) /\ c_hour c = hour (c_date c) /\
                        c_day c = strftime_ymd (c_date c) /\ c_weekday c = strftime_A (c_date c)) /\
  (forall h, In h (Dict.keys (commits_by_hour st)) -> exists c, In c cs /\ c_hour c = h) /\
  (forall d, In d (Dict.keys (commits_by_day st)) -> exists c, In c cs /\ c_day c = d).
Proof.
  apply aggregate_ind; [simpl; split; [|split]; intros ? []|].
  intros cs st c line Hp (H1 & H2 & H3).
  destruct (stats_frame_keys st c (diff (c_hash c))) as [K1 K2]. rewrite K1, K2.
  split; [|split].
  - intros c' Hc'. apply in_app_or in Hc' as [Hc'|[<-|[]]]; [exact (H1 c' Hc')|].
    destruct (parse_line_some _ _ _ Hp) as (s & Hs & Hh & Hd & Hw).
    split; [exact (Hv _ _ Hs)|tauto].
  - intros h Hh. apply in_keys_incr in Hh as [Hh| ->].
    + destruct (H2 h Hh) as [c' [Hc' E]]. exists c'. split; [apply in_or_app; left; exact Hc'|exact E].
    + exists c. split; [apply in_or_app; right; left; reflexivity|reflexivity].
  - intros d Hd. apply in_keys_incr in Hd as [Hd| ->].
    + destruct (H3 d Hd) as [c' [Hc' E]]. exists c'. split; [apply in_or_app; left; exact Hc'|exact E].
    + exists c. split; [apply in_or_app; right; left; reflexivity|reflexivity].
Qed.

Lemma aggregate_days_of_commits fromiso diff raw :
  let '(cs, st) := aggregate fromiso diff raw in
  forall c, In c cs -> In (c_day c) (Dict.keys (commits_by_day st)).
Proof.
  apply aggregate_ind; [intros ? []|].
  intros cs st c line _ H. destruct (stats_frame_keys st c (diff (c_hash c))) as [_ K2]. rewrite K2.
  unfold sincr. rewrite DictFacts.keys_incr.
  intros c' Hc'. apply in_app_or in Hc' as [Hc'|[<-|[]]].
  - pose proof (H c' Hc'). destruct (in_dec _ _ _); [assumption|apply in_or_app; left; assumption].
  - destruct (in_dec _ _ _); [assumption|apply in_or_app; right; left; reflexivity].
Qed.

End AnalyzeFacts.

Module AnalyzeExtras.
Import Py Time Stats LoopFacts ParseFacts AnalyzeFacts.

Definition weekday_names : list string :=
  ["Monday"; "Tuesday"; "Wednesday"; "Thursday"; "Friday"; "Saturday"; "Sunday"].

(** X5. If the date parser returns only valid datetimes, every parsed
    commit has a valid date and an hour between 0 and 23. Its day string is
    the 10-character [%Y-%m-%d] of its date, and its weekday is one of the
    seven English day names. Every hour key lies in 0..23, and every day key
    is the day of some commit. *)
Theorem commit_fields_valid fromiso diff raw
  (Hv : forall s dt, fromiso s = Some dt -> valid dt) :
  let '(cs, st) := aggregate fromiso diff raw in
  (forall c, In c cs ->
     valid (c_date c) /\ c_hour c = hour (c_date c) /\ 0 <= c_hour c <= 23 /\
     c_day c = strftime_ymd (c_date c) /\ String.length (c_day c) = 10%nat /\
     In (c_weekday c) weekday_names) /\
  (forall h, In h (Dict.keys (commits_by_hour st)) -> 0 <= h <= 23) /\
  (forall d, In d (Dict.keys (commits_by_day st)) -> exists c, In c cs /\ c_day c = d).
Proof.
  pose proof (aggregate_commit_facts fromiso diff raw Hv) as G.
  destruct (aggregate fromiso diff raw) as [cs st]. destruct G as (G1 & G2 & G3).
  assert (F : forall c, In c cs ->
     valid (c_date c) /\ c_hour c = hour (c_date c) /\ 0 <= c_hour c <= 23 /\
     c_day c = strftime_ymd (c_date c) /\ String.length (c_day c) = 10%nat /\
     In (c_weekday c) weekday_names).
  { intros c Hc. destruct (G1 c Hc) as (V & Hh & Hd & Hw).
    split; [exact V|split; [exact Hh|split; [|split; [exact Hd|split]]]].
    - rewrite Hh. destruct V as (_ & _ & _ & V & _). exact V.
    - rewrite Hd. apply ymd_length, V.
    - rewrite Hw. apply weekday_name. }
  split; [exact F|split; [|exact G3]].
  intros h Hh. destruct (G2 h Hh) as [c [Hc <-]]. apply (F c Hc).
Qed.

Lemma samples_valid : forall s dt, Samples.fromisoformat s = Some dt -> valid dt.
Proof.
  intros s dt H. unfold Samples.fromisoformat in H.
  repeat (destruct (String.eqb s _); [injection H as <-; vm_compute; repeat split; intros E; discriminate E|]).
  discriminate.
Qed.

(** Witness of X5: the sample parser, which returns valid datetimes. *)
Lemma commit_fields_valid_witness :
  (forall s dt, Samples.fromisoformat s = Some dt -> valid dt) /\
  (forall h, In h (Dict.keys (commits_by_hour
     (snd (aggregate Samples.fromisoformat Samples.diff_tree Samples.log)))) -> 0 <= h <= 23).
Proof.
  split; [exact samples_valid|].
  pose proof (commit_fields_valid Samples.fromisoformat Samples.diff_tree Samples.log samples_valid) as T.
  destruct (aggregate Samples.fromisoformat Samples.diff_tree Samples.log) as [cs st].
  exact (proj1 (proj2 T)).
Defined.

(** X6. When no line of the [git log] output parses as a commit, the loop
    yields no commits and the empty statistics. [analyze_git_history] then
    returns them unchanged: there are no days to score. *)
Theorem no_commit_lines fromiso diff today raw
  (H : forall line, In line (split newline raw) -> StatsFacts.line_counted fromiso line = false) :
  aggregate fromiso diff raw = ([], empty_stats) /\
  analyze_git_history fromiso diff today raw = Some ([], empty_stats).
Proof.
  assert (G : forall lines acc, (forall l, In l lines -> StatsFacts.line_counted fromiso l = false) ->
            fold_left (step fromiso diff) lines acc = acc).
  { induction lines as [|l ls IH]; intros acc Hl; simpl; [reflexivity|].
    rewrite StatsFacts.step_none.
    - apply IH. intros l' Hl'. apply Hl. right; exact Hl'.
    - pose proof (StatsFacts.parse_line_counted fromiso l) as P. rewrite (Hl l (or_introl eq_refl)) in P.
      destruct (parse_line fromiso l); [discriminate|reflexivity]. }
  assert (E : aggregate fromiso diff raw = ([], empty_stats)) by (apply G, H).
  split; [exact E|]. unfold analyze_git_history. rewrite E. reflexivity.
Qed.

(** Witness of X6: the empty output of [git log] on a repository with no
    commits. *)
Lemma no_commit_lines_witness :
  (forall line, In line (split newline "") -> StatsFacts.line_counted Samples.fromisoformat line = false) /\
  analyze_git_history Samples.fromisoformat Samples.diff_tree Samples.today "" = Some ([], empty_stats).
Proof.
  assert (H : forall line, In line (split newline "") ->
                StatsFacts.line_counted Samples.fromisoformat line = false)
    by (intros line [<-|[]]; reflexivity).
  split; [exact H|exact (proj2 (no_commit_lines _ Samples.diff_tree Samples.today "" H))].
Defined.

(** X7. When [analyze_git_history] returns, the productivity score has
    exactly the keys of [commits_by_day], in the same order. *)
Theorem score_keys fromiso diff today raw cs st
  (H : analyze_git_history fromiso diff today raw = Some (cs, st)) :
  Dict.keys (productivity_score st) = Dict.keys (commits_by_day st).
Proof.
  destruct (ScoreFacts.analyze_finalize _ _ _ _ _ _ H) as [st0 [E [Hd Hs]]].
  pose proof (ScoreFacts.aggregate_days_nodup fromiso diff raw) as Hnd.
  pose proof (productivity_score_aggregate fromiso diff raw) as Hp.
  rewrite E in Hnd, Hp. cbn [snd] in Hnd, Hp. rewrite Hp in Hs.
  rewrite (score_days_keys _ _ _ _ _ Hs Hnd); [|intros k _ []]. rewrite Hd. reflexivity.
Qed.

(** Witness of X7: the sample log. *)
Lemma score_keys_witness :
  exists cs st,
    analyze_git_history Samples.fromisoformat Samples.diff_tree Samples.today Samples.log = Some (cs, st) /\
    Dict.keys (productivity_score st) = ["2024-01-06"; "2024-01-07"].
Proof.
  do 2 eexists.
  assert (E : analyze_git_history Samples.fromisoformat Samples.diff_tree Samples.today Samples.log
              = Some (_, _)) by (vm_compute; reflexivity).
  split; [exact E|]. rewrite (score_keys _ _ _ _ _ _ E). vm_compute. reflexivity.
Defined.

(** X8. [analyze_git_history] raises exactly when some active day's string
    fails to parse as a date, or its age or weight cannot be computed. *)
Theorem analyze_fails_iff fromiso diff today raw :
  analyze_git_history fromiso diff today raw = None <->
  exists day count, In (day, count) (commits_by_day (snd (aggregate fromiso diff raw))) /\
    day_fails fromiso today day.
Proof.
  unfold analyze_git_history. destruct (aggregate fromiso diff raw) as [cs st]. cbn [snd].
  unfold finalize. rewrite <- (score_days_none fromiso today (commits_by_day st) (productivity_score st)).
  destruct (score_days fromiso today (commits_by_day st) (productivity_score st)); split; congruence.
Qed.

End AnalyzeExtras.

Module DayOrder.
Import Time WeekFacts WeekMono.

Lemma fmt4_compare (y1 y2 : Z) (s1 s2 : string) : 0 <= y1 <= 9999 -> 0 <= y2 <= 9999 ->
  String.compare (fmt4 y1 ++ s1) (fmt4 y2 ++ s2) =
  match Z.compare y1 y2 with Eq => String.compare s1 s2 | r => r end.
Proof.
  intros H1 H2.
  pose proof (year_fmt y1 H1) as (_ & E1 & B1). pose proof (year_fmt y2 H2) as (_ & E2 & B2).
  pose proof (Z.mod_pos_bound (y1 / 100) 10 ltac:(lia)).
  pose proof (Z.mod_pos_bound (y1 / 10) 10 ltac:(lia)).
  pose proof (Z.mod_pos_bound y1 10 ltac:(lia)).
  pose proof (Z.mod_pos_bound (y2 / 100) 10 ltac:(lia)).
  pose proof (Z.mod_pos_bound (y2 / 10) 10 ltac:(lia)).
  pose proof (Z.mod_pos_bound y2 10 ltac:(lia)).
  unfold fmt4. cbn [append].
  set (a1 := y1 / 1000) in *. set (b1 := y1 / 100 mod 10) in *.
  set (c1 := y1 / 10 mod 10) in *. set (e1 := y1 mod 10) in *.
  set (a2 := y2 / 1000) in *. set (b2 := y2 / 100 mod 10) in *.
  set (c2 := y2 / 10 mod 10) in *. set (e2 := y2 mod 10) in *.
  clearbody a1 b1 c1 e1 a2 b2 c2 e2.
  rewrite !compare_digit_step by lia.
  destruct (Z.compare_spec y1 y2);
  destruct (Z.compare_spec a1 a2); try lia; try reflexivity;
  destruct (Z.compare_spec b1 b2); try lia; try reflexivity;
  destruct (Z.compare_spec c1 c2); try lia; try reflexivity;
  destruct (Z.compare_spec e1 e2); try lia; try reflexivity.
Qed.

Lemma fmt2_compare (w1 w2 : Z) (s1 s2 : string) : 0 <= w1 <= 99 -> 0 <= w2 <= 99 ->
  String.compare (fmt2 w1 ++ s1) (fmt2 w2 ++ s2) =
  match Z.compare w1 w2 with Eq => String.compare s1 s2 | r => r end.
Proof.
  intros H1 H2.
  pose proof (week_fmt w1 H1) as (_ & E1 & B1). pose proof (week_fmt w2 H2) as (_ & E2 & B2).
  pose proof (Z.mod_pos_bound w1 10 ltac:(lia)). pose proof (Z.mod_pos_bound w2 10 ltac:(lia)).
  unfold fmt2. cbn [append].
  set (a1 := w1 / 10) in *. set (e1 := w1 mod 10) in *.
  set (a2 := w2 / 10) in *. set (e2 := w2 mod 10) in *.
  clearbody a1 e1 a2 e2.
  rewrite !compare_digit_step by lia.
  destruct (Z.compare_spec w1 w2);
  destruct (Z.compare_spec a1 a2); try lia; try reflexivity;
  destruct (Z.compare_spec e1 e2); try lia; try reflexivity.
Qed.

Lemma append_empty (s : string) : s ++ "" = s.
Proof. induction s as [|c s IH]; simpl; [reflexivity|rewrite IH; reflexivity]. Qed.

(** Lexicographic order of (year, month, day). *)
Definition date_compare (d1 d2 : datetime) : comparison :=
  match Z.compare (year d1) (year d2) with
  | Eq => match Z.compare (month d1) (month d2) with Eq => Z.compare (day d1) (day d2) | r => r end
  | r => r
  end.

Lemma ymd_compare (d1 d2 : datetime) : valid d1 -> valid d2 ->
  String.compare (strftime_ymd d1) (strftime_ymd d2) = date_compare d1 d2.
Proof.
  intros (Y1 & M1 & D1 & _) (Y2 & M2 & D2 & _).
  pose proof (AnalyzeFacts.days_in_month_le (year d1) (month d1)).
  pose proof (AnalyzeFacts.days_in_month_le (year d2) (month d2)).
  unfold strftime_ymd.
  rewrite (proj1 (year_fmt (year d1) ltac:(lia))), (proj1 (year_fmt (year d2) ltac:(lia))),
    (proj1 (week_fmt (month d1) ltac:(lia))), (proj1 (week_fmt (month d2) ltac:(lia))),
    (proj1 (week_fmt (day d1) ltac:(lia))), (proj1 (week_fmt (day d2) ltac:(lia))).
  rewrite fmt4_compare by lia. unfold date_compare.
  destruct (Z.compare (year d1) (year d2)); try reflexivity.
  cbn [append]. rewrite step_same, fmt2_compare by lia.
  destruct (Z.compare (month d1) (month d2)); try reflexivity.
  cbn [append]. rewrite step_same.
  replace (fmt2 (day d1)) with (fmt2 (day d1) ++ "") by apply append_empty.
  replace (fmt2 (day d2)) with (fmt2 (day d2) ++ "") by apply append_empty.
  rewrite fmt2_compare by lia. destruct (Z.compare (day d1) (day d2)); reflexivity.
Qed.

Definition year_step (y : Z) : bool :=
  days_before_year y + days_before_month y 12 + days_in_month y 12 <=? days_before_year (y + 1).

Lemma year_step_all : all_in_range year_step 1 (Z.to_nat 9999) = true.
Proof. vm_compute. reflexivity. Qed.

Lemma dby_mono (y1 y2 : Z) : y1 <= y2 -> days_before_year y1 <= days_before_year y2.
Proof.
  unfold days_before_year. intros H.
  pose proof (Z.div_le_mono (y1 - 1) (y2 - 1) 4 ltac:(lia) ltac:(lia)).
  pose proof (Z.div_le_mono (y1 - 1) (y2 - 1) 400 ltac:(lia) ltac:(lia)).
  pose proof (Z.div_le_mono (y1 - 1) (y2 - 1) 100 ltac:(lia) ltac:(lia)).
  pose proof (Z.mul_div_le (y2 - 1) 100 ltac:(lia)).
  pose proof (Z.mod_pos_bound (y1 - 1) 100 ltac:(lia)).
  pose proof (Z.div_mod (y1 - 1) 100 ltac:(lia)).
  lia.
Qed.

Lemma days_in_month_ge (y m : Z) : 28 <= days_in_month y m.
Proof. unfold days_in_month. destruct (m =? 2); [destruct (is_leap y)|destruct (_ || _)]; lia. Qed.

Lemma ord_lt (d1 d2 : datetime) : valid d1 -> valid d2 -> date_compare d1 d2 = Lt ->
  toordinal d1 < toordinal d2.
Proof.
  intros V1 V2. pose proof V1 as (Y1 & M1 & D1 & _). pose proof V2 as (Y2 & M2 & D2 & _).
  pose proof (month_facts (year d1) (month d1) M1) as (P1 & _ & C1).
  pose proof (month_facts (year d2) (month d2) M2) as (P2 & _ & C2).
  unfold date_compare, toordinal.
  destruct (Z.compare_spec (year d1) (year d2)) as [Ey|Ly|Gy]; [|intros _|discriminate].
  - destruct (Z.compare_spec (month d1) (month d2)) as [Em|Lm|Gm]; [|intros _|discriminate].
    + intros Hd. rewrite Z.compare_lt_iff in Hd. rewrite Ey, Em. lia.
    + specialize (C1 (month d2) ltac:(lia)). rewrite Ey in *. lia.
  - pose proof (all_in_range_spec _ _ _ year_step_all (year d1) ltac:(simpl; lia)) as S.
    unfold year_step in S. apply Z.leb_le in S.
    pose proof (dby_mono (year d1 + 1) (year d2) ltac:(lia)).
    pose proof (days_in_month_ge (year d1) 12).
    assert (days_before_month (year d1) (month d1) + days_in_month (year d1) (month d1)
            <= days_before_month (year d1) 12 + days_in_month (year d1) 12).
    { destruct (Z.eq_dec (month d1) 12) as [->|Hne]; [lia|]. specialize (C1 12 ltac:(lia)). lia. }
    lia.
Qed.

Lemma date_compare_antisym (d1 d2 : datetime) : date_compare d2 d1 = CompOpp (date_compare d1 d2).
Proof.
  unfold date_compare. rewrite (Z.compare_antisym (year d1) (year d2)),
    (Z.compare_antisym (month d1) (month d2)), (Z.compare_antisym (day d1) (day d2)).
  destruct (Z.compare (year d1) (year d2)); try reflexivity.
  destruct (Z.compare (month d1) (month d2)); reflexivity.
Qed.

Lemma date_compare_ordinal (d1 d2 : datetime) : valid d1 -> valid d2 ->
  date_compare d1 d2 = Z.compare (toordinal d1) (toordinal d2).
Proof.
  intros V1 V2. destruct (date_compare d1 d2) eqn:E.
  - unfold date_compare in E.
    destruct (Z.compare_spec (year d1) (year d2)) as [Ey| |]; try discriminate.
    destruct (Z.compare_spec (month d1) (month d2)) as [Em| |]; try discriminate.
    apply Z.compare_eq in E. unfold toordinal. rewrite Ey, Em, E. symmetry. apply Z.compare_refl.
  - symmetry. apply Z.compare_lt_iff, ord_lt; assumption.
  - assert (E' : date_compare d2 d1 = Lt) by (rewrite date_compare_antisym, E; reflexivity).
    symmetry. apply Z.compare_gt_iff, ord_lt; assumption.
Qed.

End DayOrder.

Module DayExtras.
Import Time DayOrder.

(** X9. For two valid datetimes, comparing their [%Y-%m-%d] day strings as
    strings gives the same result as comparing their proleptic Gregorian
    ordinals. So sorting day strings sorts the days chronologically. *)
Theorem day_string_order (d1 d2 : datetime) (V1 : valid d1) (V2 : valid d2) :
  String.compare (strftime_ymd d1) (strftime_ymd d2) = Z.compare (toordinal d1) (toordinal d2).
Proof. rewrite ymd_compare by assumption. apply date_compare_ordinal; assumption. Qed.

Lemma day_string_order_witness :
  valid (mkDT 2023 12 31 23 0 0 0 None) /\ valid (mkDT 2024 1 6 10 0 0 0 (Some 0)) /\
  String.compare (strftime_ymd (mkDT 2023 12 31 23 0 0 0 None)) (strftime_ymd (mkDT 2024 1 6 10 0 0 0 (Some 0)))
  = Z.compare (toordinal (mkDT 2023 12 31 23 0 0 0 None)) (toordinal (mkDT 2024 1 6 10 0 0 0 (Some 0))).
Proof.
  assert (V1 : valid (mkDT 2023 12 31 23 0 0 0 None)) by (vm_compute; repeat split; intros E; discriminate E).
  assert (V2 : valid (mkDT 2024 1 6 10 0 0 0 (Some 0))) by (vm_compute; repeat split; intros E; discriminate E).
  split; [exact V1|split; [exact V2|exact (day_string_order _ _ V1 V2)]].
Defined.

End DayExtras.

Module RankFacts.
Import Report.

Section Rank.
Context {A : Type}.

Definition ge_count (a b : A * Z) : Prop := snd b <= snd a.

Lemma insert_desc_perm (x : A * Z) (l : list (A * Z)) : Permutation (x :: l) (insert_desc x l).
Proof.
  induction l as [|y l IH]; simpl; [auto|].
  destruct (snd y <=? snd x); [auto|].
  apply perm_trans with (y :: x :: l); [constructor|]. apply perm_skip, IH.
Qed.

Lemma sort_desc_perm (l : list (A * Z)) : Permutation l (sort_desc l).
Proof.
  induction l as [|x l IH]; simpl; [auto|].
  apply perm_trans with (x :: sort_desc l); [apply perm_skip, IH|apply insert_desc_perm].
Qed.

Lemma insert_desc_hd (x y : A * Z) (l : list (A * Z)) :
  HdRel ge_count y l -> ge_count y x -> HdRel ge_count y (insert_desc x l).
Proof.
  intros H Hx. destruct l as [|z l]; simpl; [constructor; exact Hx|].
  destruct (snd z <=? snd x); constructor; [exact Hx|]. inversion H; assumption.
Qed.

Lemma insert_desc_sorted (x : A * Z) (l : list (A * Z)) :
  Sorted ge_count l -> Sorted ge_count (insert_desc x l).
Proof.
  induction l as [|y l IH]; intros Hs; simpl; [repeat constructor|].
  destruct (Z.leb_spec (snd y) (snd x)) as [Hle|Hlt].
  - constructor; [exact Hs|]. constructor. exact Hle.
  - inversion Hs as [|? ? Hs' Hhd]; subst. constructor; [apply IH, Hs'|].
    apply insert_desc_hd; [exact Hhd|]. unfold ge_count. lia.
Qed.

Lemma sort_desc_sorted (l : list (A * Z)) : Sorted ge_count (sort_desc l).
Proof. induction l as [|x l IH]; simpl; [constructor|]. apply insert_desc_sorted, IH. Qed.

Lemma insert_desc_filter (v : Z) (x : A * Z) (l : list (A * Z)) :
  filter (fun p => snd p =? v) (insert_desc x l) = filter (fun p => snd p =? v) (x :: l).
Proof.
  induction l as [|y l IH]; simpl; [reflexivity|].
  destruct (Z.leb_spec (snd y) (snd x)) as [Hle|Hlt]; [reflexivity|].
  simpl. rewrite IH. simpl.
  destruct (Z.eqb_spec (snd x) v); destruct (Z.eqb_spec (snd y) v); try reflexivity; lia.
Qed.

Lemma sort_desc_filter (v : Z) (l : list (A * Z)) :
  filter (fun p => snd p =? v) (sort_desc l) = filter (fun p => snd p =? v) l.
Proof.
  induction l as [|x l IH]; simpl; [reflexivity|].
  rewrite insert_desc_filter. simpl. rewrite IH. reflexivity.
Qed.

Lemma sorted_split_dominates (k : nat) (l : list (A * Z)) :
  Sorted ge_count l ->
  forall x y, In x (firstn k l) -> In y (skipn k l) -> snd y <= snd x.
Proof.
  intros Hs. apply Sorted_StronglySorted in Hs; [|intros a b c H1 H2; unfold ge_count in *; lia].
  revert l Hs; induction k as [|k IH]; intros l Hs x y Hx Hy; [destruct Hx|].
  destruct l as [|z l]; [destruct Hx|]. simpl in Hx, Hy.
  apply StronglySorted_inv in Hs as [Hs Hall].
  destruct Hx as [<-|Hx].
  - rewrite Forall_forall in Hall. apply Hall. apply (RetainFacts.in_skipn_in k), Hy.
  - exact (IH l Hs x y Hx Hy).
Qed.

(** [fold_left] of the [max] step: the start, or a later strict maximum. *)
Lemma max_fold (l : list (A * Z)) (b : A * Z) :
  let r := fold_left (fun best y => if snd best <? snd y then y else best) l b in
  (r = b /\ Forall (fun y => snd y <= snd b) l) \/
  (exists p q, l = (p ++ r :: q)%list /\ snd b < snd r /\
     Forall (fun y => snd y < snd r) p /\ Forall (fun y => snd y <= snd r) q).
Proof.
  cbv zeta. revert b; induction l as [|y l IH]; intros b; simpl; [left; split; [reflexivity|constructor]|].
  destruct (Z.ltb_spec (snd b) (snd y)) as [Hlt|Hge].
  - destruct (IH y) as [[-> Hf]|(p & q & E & Hr & Hp & Hq)].
    + right. exists [], l. split; [reflexivity|split; [exact Hlt|split; [constructor|exact Hf]]].
    + right. exists (y :: p), q. split; [simpl; f_equal; exact E|split; [lia|split; [|exact Hq]]].
      constructor; [lia|exact Hp].
  - destruct (IH b) as [[-> Hf]|(p & q & E & Hr & Hp & Hq)].
    + left. split; [reflexivity|]. constructor; [lia|exact Hf].
    + right. exists (y :: p), q. split; [simpl; f_equal; exact E|split; [exact Hr|split; [|exact Hq]]].
      constructor; [lia|exact Hp].
Qed.

End Rank.

End RankFacts.

Module RankExtras.
Import Stats Report RankFacts.

(** X10. [sorted(items, key=lambda x: x[1], reverse=True)] permutes the
    items and orders them by non-increasing count. It is stable: the items
    of any one count keep their input order. Every item of a prefix has a
    count at least that of every item after it, so [[:5]] and [[:10]] are
    top counts. *)
Theorem sort_desc_stable {A} (l : list (A * Z)) :
  Permutation l (sort_desc l) /\
  Sorted (fun a b => snd b <= snd a) (sort_desc l) /\
  (forall v, filter (fun p => snd p =? v) (sort_desc l) = filter (fun p => snd p =? v) l) /\
  (forall k x y, In x (firstn k (sort_desc l)) -> In y (skipn k (sort_desc l)) -> snd y <= snd x).
Proof.
  split; [apply sort_desc_perm|split; [apply sort_desc_sorted|split; [intros v; apply sort_desc_filter|]]].
  intros k. apply sorted_split_dominates, sort_desc_sorted.
Qed.

(** X11. [max(items, key=lambda x: x[1])] is [None] exactly on no items.
    Otherwise it returns the first item with the largest count: every
    earlier item has a strictly smaller count, and no later one is larger. *)
Theorem max_item_first {A} (l : list (A * Z)) :
  (max_item l = None <-> l = []) /\
  (forall x, max_item l = Some x ->
     exists pre post, l = (pre ++ x :: post)%list /\
       Forall (fun y => snd y < snd x) pre /\ Forall (fun y => snd y <= snd x) post).
Proof.
  split; [destruct l; simpl; split; congruence|].
  intros x. destruct l as [|z l]; simpl; [discriminate|]. intros H. injection H as <-.
  destruct (max_fold l z) as [[-> Hf]|(p & q & E & Hr & Hp & Hq)].
  - exists [], l. split; [reflexivity|split; [constructor|exact Hf]].
  - exists (z :: p), q. split; [simpl; f_equal; exact E|split; [|exact Hq]]. constructor; [exact Hr|exact Hp].
Qed.

End RankExtras.

Module RecentFacts.
Import Py Time Stats Music Report Main.

Lemma map_fst_insert_item {A} (x : string * A) (l : list (string * A)) :
  map fst (insert_item x l) = insert_str (fst x) (map fst l).
Proof.
  induction l as [|y l IH]; simpl; [reflexivity|].
  destruct (String.leb (fst x) (fst y)); simpl; [reflexivity|]. rewrite IH. reflexivity.
Qed.

Lemma map_fst_sort_items {A} (l : list (string * A)) :
  map fst (sort_items l) = sort_str (map fst l).
Proof.
  induction l as [|x l IH]; simpl; [reflexivity|].
  rewrite map_fst_insert_item, IH. reflexivity.
Qed.

Lemma take_last_map {A B} (f : A -> B) n (l : list A) :
  take_last n (map f l) = map f (take_last n l).
Proof. unfold take_last. rewrite length_map, skipn_map. reflexivity. Qed.

Lemma set_fresh {K V} (dec : forall x y : K, {x = y} + {x <> y}) (k : K) (v : V) (d : Dict.t K V) :
  ~ In k (Dict.keys d) -> Dict.set dec k v d = (d ++ [(k, v)])%list.
Proof.
  induction d as [|[k' v'] d IH]; simpl; [reflexivity|].
  intros Hn. destruct (dec k k') as [->|Hne]; [exfalso; apply Hn; left; reflexivity|].
  rewrite IH; [reflexivity|]. intros H; apply Hn; right; exact H.
Qed.

Lemma dict_of_items_fold (items acc : list (string * Z)) :
  NoDup (map fst (acc ++ items)) ->
  fold_left (fun d '(day, count) => Dict.set string_dec day count d) items acc = (acc ++ items)%list.
Proof.
  revert acc; induction items as [|[k v] items IH]; intros acc Hnd; simpl; [rewrite app_nil_r; reflexivity|].
  rewrite set_fresh.
  - rewrite IH; [rewrite <- app_assoc; reflexivity|]. rewrite <- app_assoc. exact Hnd.
  - rewrite map_app in Hnd. simpl in Hnd. apply NoDup_remove_2 in Hnd.
    intros H; apply Hnd, in_or_app; left; exact H.
Qed.

Lemma dict_of_items_nodup (items : list (string * Z)) :
  NoDup (map fst items) -> dict_of_items items = items.
Proof. intros H. unfold dict_of_items. apply (dict_of_items_fold items []), H. Qed.

Lemma nodup_in_fst {A} (l : list (string * A)) k a b :
  NoDup (map fst l) -> In (k, a) l -> In (k, b) l -> a = b.
Proof.
  intros Hnd Ha Hb.
  pose proof (DictSetFacts.in_get string_dec k a l Hnd Ha) as Ea.
  pose proof (DictSetFacts.in_get string_dec k b l Hnd Hb) as Eb. congruence.
Qed.

Lemma take_last_length {A} n (l : list A) : List.length (take_last n l) = Nat.min n (List.length l).
Proof. unfold take_last. rewrite length_skipn. lia. Qed.

Lemma take_last_split {A} n (l : list A) : exists pre, l = (pre ++ take_last n l)%list.
Proof. unfold take_last. exists (firstn (List.length l - n) l). symmetry; apply firstn_skipn. Qed.

Lemma take_last_in {A} n (l : list A) x : In x (take_last n l) -> In x l.
Proof. unfold take_last. apply RetainFacts.in_skipn_in. Qed.

Lemma take_last_sorted n (l : list string) :
  StronglySorted StrOrder.lt l -> StronglySorted StrOrder.lt (take_last n l).
Proof.
  intros H. destruct (take_last_split n l) as [pre E]. rewrite E in H.
  exact (MovementFacts.strongly_sorted_app_r _ _ H).
Qed.

(** What the recent days of the report and of [stats_json] are, for a
    counter with distinct keys. *)
Lemma recent_days_facts (days : Dict.t string Z) :
  NoDup (Dict.keys days) ->
  let R := take_last 30 (sort_str (Dict.keys days)) in
  StronglySorted StrOrder.lt R /\ List.length R = Nat.min 30 (List.length days) /\
  (forall d, In d R -> In d (Dict.keys days)) /\
  (forall d d', In d (Dict.keys days) -> ~ In d R -> In d' R -> StrOrder.lt d d') /\
  dict_of_items (take_last 30 (sort_items days)) = take_last 30 (sort_items days) /\
  Dict.keys (take_last 30 (sort_items days)) = R /\
  (forall d n, In (d, n) (take_last 30 (sort_items days)) <-> In d R /\ In (d, n) days).
Proof.
  intros Hnd R.
  assert (ER : R = map fst (take_last 30 (sort_items days))).
  { unfold R, Dict.keys. rewrite <- map_fst_sort_items, take_last_map. reflexivity. }
  pose proof (StrOrder.sort_items_sorted days Hnd) as Hs.
  pose proof (StrOrder.sort_items_perm days) as Hp.
  assert (Hsub : forall x, In x (take_last 30 (sort_items days)) -> In x days).
  { intros x Hx. apply (Permutation_in _ (Permutation_sym Hp)), (take_last_in _ _ _ Hx). }
  assert (HndR : NoDup (map fst (take_last 30 (sort_items days)))).
  { rewrite <- take_last_map. destruct (take_last_split 30 (map fst (sort_items days))) as [pre E].
    assert (H : NoDup (map fst (sort_items days))) by exact (Permutation_NoDup (Permutation_map fst Hp) Hnd).
    rewrite E in H. exact (NoDup_app_remove_l _ _ H). }
  split; [rewrite ER, <- take_last_map; apply take_last_sorted, Hs|].
  split; [rewrite ER, length_map, take_last_length, <- (Permutation_length Hp); reflexivity|].
  split.
  { rewrite ER. intros d Hd. apply in_map_iff in Hd as [[k v] [<- Hk]]. apply (in_map fst), Hsub, Hk. }
  split.
  { intros d d' Hd Hn Hd'.
    assert (Hs' := Hs).
    destruct (take_last_split 30 (map fst (sort_items days))) as [pre E].
    rewrite E in Hs'. rewrite ER, <- take_last_map in Hn, Hd'.
    apply (MusicFacts.strongly_sorted_app_lt pre _ _ _ Hs'); [|exact Hd'].
    assert (Hin : In d (map fst (sort_items days)))
      by exact (Permutation_in _ (Permutation_map fst Hp) Hd).
    rewrite E in Hin. apply in_app_or in Hin as [Hin|Hin]; [exact Hin|contradiction]. }
  split; [apply dict_of_items_nodup, HndR|].
  split; [symmetry; exact ER|].
  intros d n. split.
  - intros H. split; [rewrite ER; apply (in_map fst _ _ H)|apply Hsub, H].
  - intros [Hd Hin]. rewrite ER in Hd. apply in_map_iff in Hd as [[k v] [Ek Hk]]. simpl in Ek; subst k.
    rewrite (nodup_in_fst days d n v Hnd Hin (Hsub _ Hk)). exact Hk.
Qed.

End RecentFacts.

Module ReportExtras.
Import Py Time Stats Music Report Main RecentFacts.

(** X12. The "cosmic facts" part of the report never raises, for any
    statistics. It always has the title, the recent-average line, a blank
    line and a banner. The brightest-day line is there exactly when some day
    has commits, and the hottest-file line exactly when some file changed. *)
Theorem fact_lines_total (st : stats) :
  exists ls, fact_lines st = Some ls /\
    List.length ls = (4 + match commits_by_day st with [] => 0 | _ => 1 end
                   + match file_changes st with [] => 0 | _ => 1 end)%nat.
Proof.
  unfold fact_lines.
  set (R := take_last 30 (sort_str (Dict.keys (commits_by_day st)))).
  destruct (MusicFacts.map_option_forall2 (fun day => Dict.get string_dec day (commits_by_day st)) R)
    as [counts [E _]].
  { intros d Hd. destruct (Dict.get string_dec d (commits_by_day st)) as [n|] eqn:G; [exists n; reflexivity|].
    exfalso. apply (DictSetFacts.get_none string_dec d _ G).
    unfold R, Dict.keys in Hd. rewrite <- map_fst_sort_items in Hd. apply take_last_in in Hd.
    exact (Permutation_in _ (Permutation_sym (Permutation_map fst (StrOrder.sort_items_perm _))) Hd). }
  rewrite E.
  assert (A : exists avg, match R with
                          | [] => Some (PyFloat.of_int 0)
                          | _ => PyFloat.int_truediv (Dict.sum counts) (Z.of_nat (List.length R))
                          end = Some avg).
  { destruct R as [|r R']; [eexists; reflexivity|]. unfold PyFloat.int_truediv.
    replace (Z.of_nat (List.length (r :: R')) =? 0) with false by (simpl; lia). eexists; reflexivity. }
  destruct A as [avg A]. rewrite A. eexists; split; [reflexivity|].
  destruct (commits_by_day st) as [|[d n] days]; destruct (file_changes st) as [|[f m] fs]; simpl;
    repeat match goal with |- context [let (_, _) := ?x in _] => destruct x end;
    rewrite ?length_app; simpl; lia.
Qed.

End ReportExtras.

Module MainExtras.
Import Py Time Stats Music Report Main RecentFacts AnalyzeFacts DayOrder.

(** X13. Suppose the date parser returns only valid datetimes and the
    analysis returns. The recent days of the report and of [stats_json]
    are then the last 30 of the sorted day keys: increasing, at most 30,
    and each the day of some commit. Every commit on a day left out is
    strictly earlier than every commit on a recent day. The [recent_activity]
    dict has exactly those days as keys, in order, with their commit counts. *)
Theorem recent_activity_latest fromiso diff today raw now_iso cs st
  (Hv : forall s dt, fromiso s = Some dt -> valid dt)
  (H : analyze_git_history fromiso diff today raw = Some (cs, st)) :
  let R := take_last 30 (sort_str (Dict.keys (commits_by_day st))) in
  StronglySorted StrOrder.lt R /\
  List.length R = Nat.min 30 (List.length (commits_by_day st)) /\
  (forall d, In d R -> exists c, In c cs /\ c_day c = d) /\
  (forall c c', In c cs -> In c' cs -> ~ In (c_day c) R -> In (c_day c') R ->
     toordinal (c_date c) < toordinal (c_date c')) /\
  Dict.keys (recent_activity (make_stats_json now_iso st)) = R /\
  (forall d n, In (d, n) (recent_activity (make_stats_json now_iso st)) <->
     In d R /\ In (d, n) (commits_by_day st)).
Proof.
  intros R.
  destruct (ScoreFacts.analyze_finalize _ _ _ _ _ _ H) as [st0 [E [Hd _]]].
  pose proof (ScoreFacts.aggregate_days_nodup fromiso diff raw) as Hnd.
  pose proof (aggregate_commit_facts fromiso diff raw Hv) as G.
  pose proof (aggregate_days_of_commits fromiso diff raw) as K.
  rewrite E in Hnd, G, K. cbn [snd] in Hnd. rewrite <- Hd in Hnd, G, K.
  destruct G as (G1 & _ & G3).
  destruct (recent_days_facts (commits_by_day st) Hnd) as (S1 & S2 & S3 & S4 & S5 & S6 & S7).
  fold R in S1, S2, S3, S4, S6, S7.
  unfold make_stats_json. cbn [recent_activity]. rewrite S5.
  split; [exact S1|split; [exact S2|split; [|split; [|split; [exact S6|exact S7]]]]].
  - intros d Hd'. apply G3, S3, Hd'.
  - intros c c' Hc Hc' Hn Hr.
    pose proof (S4 _ _ (K c Hc) Hn Hr) as L. unfold StrOrder.lt in L.
    destruct (G1 c Hc) as (V & _ & D & _). destruct (G1 c' Hc') as (V' & _ & D' & _).
    rewrite D, D', ymd_compare, date_compare_ordinal in L by assumption.
    apply Z.compare_lt_iff, L.
Qed.

(** Witness of X13: the sample log. *)
Lemma recent_activity_latest_witness :
  (forall s dt, Samples.fromisoformat s = Some dt -> valid dt) /\
  exists cs st,
    analyze_git_history Samples.fromisoformat Samples.diff_tree Samples.today Samples.log = Some (cs, st) /\
    Dict.keys (recent_activity (make_stats_json "2026-10-19T09:00:00" st)) = ["2024-01-06"; "2024-01-07"].
Proof.
  split; [exact AnalyzeExtras.samples_valid|]. do 2 eexists.
  assert (E : analyze_git_history Samples.fromisoformat Samples.diff_tree Samples.today Samples.log
              = Some (_, _)) by (vm_compute; reflexivity).
  split; [exact E|].
  pose proof (recent_activity_latest _ _ _ _ "2026-10-19T09:00:00" _ _ AnalyzeExtras.samples_valid E)
    as (_ & _ & _ & _ & K & _).
  rewrite K. vm_compute. reflexivity.
Defined.

(** X14. [main] raises exactly when the analysis or the report raises.
    The musical encoding never does. When both return, [main] produces the
    score, the report and the [stats_json] of the analysed statistics. *)
Theorem main_outputs fromiso diff today now_iso raw :
  (main fromiso diff today now_iso raw = None <->
   analyze_git_history fromiso diff today raw = None \/
   exists cs st, analyze_git_history fromiso diff today raw = Some (cs, st) /\
                 generate_summary_report st = None) /\
  (forall cs st report,
     analyze_git_history fromiso diff today raw = Some (cs, st) ->
     generate_summary_report st = Some report ->
     exists sc, create_musical_representation cs st = Some sc /\
       main fromiso diff today now_iso raw = Some (sc, report, make_stats_json now_iso st)).
Proof.
  unfold main.
  destruct (analyze_git_history fromiso diff today raw) as [[cs st]|].
  - destruct (MovementFacts.movements_exist cs st) as [sc [Esc _]]. rewrite Esc.
    destruct (generate_summary_report st) as [rep|] eqn:Er; split.
    + split; [discriminate|]. intros [D|(cs' & st' & D & R)]; [discriminate|].
      injection D as <- <-. congruence.
    + intros cs' st' rep' D R. injection D as <- <-. rewrite Er in R. injection R as <-.
      exists sc. split; [exact Esc|reflexivity].
    + split; [intros _; right; exists cs, st; split; [reflexivity|exact Er]|reflexivity].
    + intros cs' st' rep' D R. injection D as <- <-. congruence.
  - split; [split; [intros _; left; reflexivity|reflexivity]|intros cs st rep D; discriminate].
Qed.

End MainExtras.
